(** * The gripper interaction demo ([robosuite/demos/demo_gripper_interaction.py])

    A shallow embedding of the demo's driver: the look-ups done once before
    the loop, and the body of the [while True] loop (contact diagnostics,
    plan selection, control writes, engine step, gravity compensation,
    render, counter increment).  The physics engine, its viewer and the
    gripper model are outside the script; they are an interface here
    ([Mujoco]), and every statement is about all of its instances. *)

From Stdlib Require Import ZArith Lia String.
From Stdlib Require Import Floats.PrimFloat Floats.SpecFloat Floats.FloatOps.
From stdpp Require Import base list.

Set Warnings "-inexact-float".
Open Scope Z_scope.

(** ** Python and NumPy primitives used by the script *)
Module Py.

(** Exceptions: the built-in ones the script's own expressions can raise,
    and whatever an external call raises. *)
Inductive exn : Type :=
| IndexError
| ValueError
| OverflowError
| ZeroDivisionError
| ExternalError (msg : string).

Inductive result (A : Type) : Type :=
| Ok (a : A)
| Raise (e : exn).
Arguments Ok {A} a.
Arguments Raise {A} e.

Definition bind {A B} (m : result A) (k : A -> result B) : result B :=
  match m with
  | Ok a => k a
  | Raise e => Raise e
  end.

Notation "'let*' x ':=' m 'in' k" := (bind m (fun x => k))
  (at level 10, x pattern, m at level 100, k at level 200).

Definition lift {A B} (f : A -> B) (m : result A) : result B :=
  let* a := m in Ok (f a).

Fixpoint mapM {A B} (f : A -> result B) (l : list A) : result (list B) :=
  match l with
  | [] => Ok []
  | x :: l' =>
      let* y := f x in
      let* ys := mapM f l' in
      Ok (y :: ys)
  end.

(** A Python [float] is an IEEE 754 binary64 number. *)
Definition float : Type := spec_float.
Definition prec : Z := 53.
Definition emax : Z := 1024.

(** The value of a decimal literal of the source. *)
Definition literal (x : PrimFloat.float) : float := Prim2SF x.

(** An [int] read as the binary number [a * 2^0] (no rounding). *)
Definition int_exact (a : Z) : spec_float :=
  match a with
  | Z0 => S754_zero false
  | Zpos p => S754_finite false p 0
  | Zneg p => S754_finite true p 0
  end.

(** [a / b] on two [int]s: the quotient of the integers, rounded once to
    the nearest binary64 (ties to even); too large a quotient raises
    [OverflowError], a zero divisor [ZeroDivisionError]. *)
Definition truediv (a b : Z) : result float :=
  if b =? 0 then Raise ZeroDivisionError
  else
    match SFdiv prec emax (int_exact a) (int_exact b) with
    | S754_infinity _ => Raise OverflowError
    | q => Ok q
    end.

(** [int(x)] on a [float]: truncation toward zero. *)
Definition int_of_float (x : float) : result Z :=
  match x with
  | S754_zero _ => Ok 0
  | S754_finite s m e =>
      Ok (cond_Zopp s (if 0 <=? e then Zpos m * 2 ^ e else Zpos m / 2 ^ (- e)))
  | S754_infinity _ => Raise OverflowError
  | S754_nan => Raise ValueError
  end.

(** [a % b] on [int]s is the floored remainder, [Z.modulo]. *)
Definition mod_ (a b : Z) : Z := a mod b.

(** An index into a sequence of length [len]: negative indices count from
    the end, anything outside [-len, len) raises [IndexError]. *)
Definition norm_index (len : nat) (i : Z) : result nat :=
  if (0 <=? i) && (i <? Z.of_nat len) then Ok (Z.to_nat i)
  else if (- Z.of_nat len <=? i) && (i <? 0) then Ok (Z.to_nat (i + Z.of_nat len))
  else Raise IndexError.

(** [l[i]] *)
Definition getitem {A} (l : list A) (i : Z) : result A :=
  let* n := norm_index (length l) i in
  match l !! n with
  | Some x => Ok x
  | None => Raise IndexError
  end.

(** [l[i] = v] *)
Definition setitem {A} (l : list A) (i : Z) (v : A) : result (list A) :=
  let* n := norm_index (length l) i in
  Ok (<[n := v]> l).

(** [l[lo:hi]] *)
Definition slice {A} (l : list A) (lo hi : Z) : list A :=
  let n := Z.of_nat (length l) in
  let clamp i := if i <? 0 then Z.max 0 (i + n) else Z.min i n in
  take (Z.to_nat (clamp hi - clamp lo)) (drop (Z.to_nat (clamp lo)) l).

(** [a[ids]] for a list of integer indices. *)
Definition take_at {A} (a : list A) (ids : list Z) : result (list A) :=
  mapM (getitem a) ids.

(** Broadcasting of a one-dimensional value to [n] indexed places. *)
Definition broadcast {A} (n : nat) (vals : list A) : result (list A) :=
  if Nat.eqb (length vals) n then Ok vals
  else
    match vals with
    | [v] => Ok (replicate n v)
    | _ => Raise ValueError
    end.

Definition put_pairs {A} (a : list A) (pairs : list (nat * A)) : list A :=
  foldl (fun acc p => <[fst p := snd p]> acc) a pairs.

(** [a[ids] = vals] for a list of integer indices: the values are
    broadcast to the shape of the index first, then the indices are checked;
    the places are written in order, so the last write to a repeated index
    stays. *)
Definition put_at {A} (a : list A) (ids : list Z) (vals : list A) : result (list A) :=
  let* vs := broadcast (length ids) vals in
  let* ns := mapM (norm_index (length a)) ids in
  Ok (put_pairs a (zip ns vs)).

(** [name == "..."] where [name] may be [None]. *)
Definition name_eqb (name : option string) (s : string) : bool :=
  match name with
  | Some n => String.eqb n s
  | None => false
  end.

(** Two notions used to state what [truediv] returns: the record of a
    shift that has lost nothing, and the 53-bit mantissa of a positive
    integer below [2^53]. *)
Definition exact_rec (m : Z) : shr_record :=
  {| shr_m := m; shr_r := false; shr_s := false |}.

Definition mantissa (k : Z) : Z := k * 2 ^ (52 - Z.log2 k).

End Py.

(** ** The script *)
Module Demo.
Import Py.
Local Open Scope string_scope.
Local Open Scope Z_scope.

(** One entry of [sim.data.contact]. *)
Record Contact : Type := {
  geom1 : Z;
  geom2 : Z;
  friction : list float;
  frame : list float
}.

(** [sim.data]: the arrays the script reads or writes, and the rest of the
    engine's state, which the script never touches. *)
Record MjData (H : Type) : Type := {
  ctrl : list float;
  qfrc_applied : list float;
  qfrc_bias : list float;
  contact : list Contact;
  ncon : Z;
  hidden : H
}.
Arguments ctrl {H} _.
Arguments qfrc_applied {H} _.
Arguments qfrc_bias {H} _.
Arguments contact {H} _.
Arguments ncon {H} _.
Arguments hidden {H} _.

(** What the script calls and does not define: the engine ([MjSim] and its
    model), the gripper model's actuator names, and [id]. *)
Class Mujoco : Type := {
  hidden_state : Type;
  saved_state : Type;
  get_state : MjData hidden_state -> saved_state;
  set_state : MjData hidden_state -> saved_state -> MjData hidden_state;
  sim_step : MjData hidden_state -> result (MjData hidden_state);
  get_joint_qvel_addr : string -> result Z;
  actuator_name2id : string -> result Z;
  geom_id2name : Z -> result (option string);
  gripper_actuators : list string;
  object_id : Contact -> Z
}.

(** What an observer of the process sees, in order: the lines printed, the
    writes into the engine's arrays, the calls of [sim.step] and
    [viewer.render]. *)
Inductive event : Type :=
| PrintStep (step : Z)
| PrintGeoms (geom_name1 geom_name2 : option string)
| PrintContactId (id : Z)
| PrintFriction (friction : list float)
| PrintNormal (normal : list float)
| PrintPlan (low closed : bool)
| SetCtrl (i : Z) (v : float)
| SetCtrlAt (ids : list Z) (vals : list float)
| SimStep
| SetForceAt (ids : list Z) (vals : list float)
| Render.

(** The constants of lines 91-115. *)
Definition gravity_corrected : list string := ["gripper_z_joint"].
Definition gripper_z_low : float := Eval vm_compute in literal 0.07%float.
Definition gripper_z_high : float := Eval vm_compute in literal (-0.02)%float.
Definition gripper_open : list float :=
  Eval vm_compute in [literal (-0.0115)%float; literal 0.0115%float].
Definition gripper_closed : list float :=
  Eval vm_compute in [literal 0.020833%float; literal (-0.020833)%float].
Definition seq : list (bool * bool) :=
  [(false, false); (true, false); (true, true); (false, true)].
Definition T : Z := 500.

(** The ids looked up once before the loop. *)
Record Handles : Type := {
  _ref_joint_vel_indexes : list Z;
  gripper_z_id : Z;
  gripper_jaw_ids : list Z
}.

Section Script.
Context {engine : Mujoco}.

(** The variables of the loop, the engine's data and the output so far. *)
Record State : Type := {
  sim : MjData hidden_state;
  out : list event;
  step : Z;
  gripper_z_is_low : bool;
  gripper_is_closed : bool
}.

Definition emit (st : State) (evs : list event) : State :=
  {| sim := sim st; out := out st ++ evs; step := step st;
     gripper_z_is_low := gripper_z_is_low st;
     gripper_is_closed := gripper_is_closed st |}.

Definition with_sim (st : State) (d : MjData hidden_state) : State :=
  {| sim := d; out := out st; step := step st;
     gripper_z_is_low := gripper_z_is_low st;
     gripper_is_closed := gripper_is_closed st |}.

Definition with_ctrl (d : MjData hidden_state) (c : list float) : MjData hidden_state :=
  {| ctrl := c; qfrc_applied := qfrc_applied d; qfrc_bias := qfrc_bias d;
     contact := contact d; ncon := ncon d; hidden := hidden d |}.

Definition with_qfrc_applied (d : MjData hidden_state) (q : list float) : MjData hidden_state :=
  {| ctrl := ctrl d; qfrc_applied := q; qfrc_bias := qfrc_bias d;
     contact := contact d; ncon := ncon d; hidden := hidden d |}.

(** Lines 122-132: the body of [for contact in ...], over the contacts
    still to visit. *)
Fixpoint report_contacts (cs : list Contact) (st : State) : result State :=
  match cs with
  | [] => Ok st
  | c :: cs' =>
      let* geom_name1 := geom_id2name (geom1 c) in
      let* geom_name2 := geom_id2name (geom2 c) in
      if name_eqb geom_name1 "floor" && name_eqb geom_name2 "floor"
      then report_contacts cs' st
      else
        report_contacts cs'
          (emit st [PrintGeoms geom_name1 geom_name2;
                    PrintContactId (object_id c);
                    PrintFriction (friction c);
                    PrintNormal (slice (frame c) 0 3)])
  end.

(** Lines 118-132. *)
Definition diagnostics (st : State) : result State :=
  if mod_ (step st) 100 =? 0 then
    report_contacts (slice (contact (sim st)) 0 (ncon (sim st)))
                    (emit st [PrintStep (step st)])
  else Ok st.

(** Line 136: [seq[int(step / T) % len(seq)]]. *)
Definition plan_index (step : Z) : result Z :=
  let* q := truediv step T in
  let* n := int_of_float q in
  Ok (mod_ n (Z.of_nat (length seq))).

(** Lines 135-142. *)
Definition select_plan (st : State) : result State :=
  if mod_ (step st) T =? 0 then
    let* i := plan_index (step st) in
    let* plan := getitem seq i in
    Ok {| sim := sim st;
          out := out st ++ [PrintPlan (fst plan) (snd plan)];
          step := step st;
          gripper_z_is_low := fst plan;
          gripper_is_closed := snd plan |}
  else Ok st.

Definition set_ctrl (st : State) (i : Z) (v : float) : result State :=
  let* c := setitem (ctrl (sim st)) i v in
  Ok (emit (with_sim st (with_ctrl (sim st) c)) [SetCtrl i v]).

Definition set_ctrl_at (st : State) (ids : list Z) (vals : list float) : result State :=
  let* c := put_at (ctrl (sim st)) ids vals in
  Ok (emit (with_sim st (with_ctrl (sim st) c)) [SetCtrlAt ids vals]).

(** Lines 145-152. *)
Definition write_controls (h : Handles) (st : State) : result State :=
  let* st1 :=
    if gripper_z_is_low st
    then set_ctrl st (gripper_z_id h) gripper_z_low
    else set_ctrl st (gripper_z_id h) gripper_z_high in
  if gripper_is_closed st1
  then set_ctrl_at st1 (gripper_jaw_ids h) gripper_closed
  else set_ctrl_at st1 (gripper_jaw_ids h) gripper_open.

(** Line 155. *)
Definition step_engine (st : State) : result State :=
  let* d := sim_step (sim st) in
  Ok (emit (with_sim st d) [SimStep]).

(** Lines 156-158. *)
Definition compensate_gravity (h : Handles) (st : State) : result State :=
  let* vals := take_at (qfrc_bias (sim st)) (_ref_joint_vel_indexes h) in
  let* q := put_at (qfrc_applied (sim st)) (_ref_joint_vel_indexes h) vals in
  Ok (emit (with_sim st (with_qfrc_applied (sim st) q))
           [SetForceAt (_ref_joint_vel_indexes h) vals]).

(** Line 159. *)
Definition render (st : State) : State := emit st [Render].

(** Line 160. *)
Definition increment (st : State) : State :=
  {| sim := sim st; out := out st; step := step st + 1;
     gripper_z_is_low := gripper_z_is_low st;
     gripper_is_closed := gripper_is_closed st |}.

(** Lines 118-160: one pass through the body of [while True]. *)
Definition loop_body (h : Handles) (st : State) : result State :=
  let* st := diagnostics st in
  let* st := select_plan st in
  let* st := write_controls h st in
  let* st := step_engine st in
  let* st := compensate_gravity h st in
  Ok (increment (render st)).

(** The loop never ends by itself: [iterate n] is its first [n] passes. *)
Fixpoint iterate (n : nat) (h : Handles) (st : State) : result State :=
  match n with
  | O => Ok st
  | S n' =>
      let* st' := loop_body h st in
      iterate n' h st'
  end.

(** The state in which the loop is entered (lines 100, 107, 114), for any
    initial values of the two flags. *)
Definition loop_entry (d : MjData hidden_state) (low closed : bool) : State :=
  {| sim := d; out := []; step := 0;
     gripper_z_is_low := low; gripper_is_closed := closed |}.

(** Lines 88-115, from the simulation [MjSim(model)] has built. *)
Definition setup (d : MjData hidden_state) : result (Handles * State) :=
  let sim_state := get_state d in
  let* idx := mapM get_joint_qvel_addr gravity_corrected in
  let* z := actuator_name2id "gripper_z" in
  let* jaws := mapM actuator_name2id gripper_actuators in
  Ok ({| _ref_joint_vel_indexes := idx; gripper_z_id := z; gripper_jaw_ids := jaws |},
      loop_entry (set_state d sim_state) false true).

(** The lines one contact contributes, given the names of its two geoms,
    and the lines of a run of contacts: what the statements about
    [report_contacts] compare it with. *)
Definition lines_of (c : Contact) (geom_name1 geom_name2 : option string) : list event :=
  if name_eqb geom_name1 "floor" && name_eqb geom_name2 "floor" then []
  else [PrintGeoms geom_name1 geom_name2;
        PrintContactId (object_id c);
        PrintFriction (friction c);
        PrintNormal (take 3 (frame c))].

Fixpoint contact_lines (cs : list Contact) : result (list event) :=
  match cs with
  | [] => Ok []
  | c :: cs' =>
      let* geom_name1 := geom_id2name (geom1 c) in
      let* geom_name2 := geom_id2name (geom2 c) in
      let* rest := contact_lines cs' in
      Ok (lines_of c geom_name1 geom_name2 ++ rest)%list
  end.

(** Names for what the statements below speak of: a state with another
    counter or other flags, and the two control writes with given targets. *)
Definition with_step (st : State) (s : Z) : State :=
  {| sim := sim st; out := out st; step := s;
     gripper_z_is_low := gripper_z_is_low st;
     gripper_is_closed := gripper_is_closed st |}.

Definition with_flags (st : State) (low closed : bool) : State :=
  {| sim := sim st; out := out st; step := step st;
     gripper_z_is_low := low; gripper_is_closed := closed |}.

Definition command (h : Handles) (st : State) (height : float) (fingers : list float)
  : result State :=
  let* st1 := set_ctrl st (gripper_z_id h) height in
  set_ctrl_at st1 (gripper_jaw_ids h) fingers.

(** The plan table with the targets each of its pairs selects. *)
Definition phase_order : list ((bool * bool) * (float * list float)) :=
  [((false, false), (gripper_z_high, gripper_open));
   ((true, false), (gripper_z_low, gripper_open));
   ((true, true), (gripper_z_low, gripper_closed));
   ((false, true), (gripper_z_high, gripper_closed))].

(** The script, cut after [n] passes through the loop. *)
Definition main (n : nat) (d : MjData hidden_state) : result State :=
  let* hs := setup d in
  iterate n (fst hs) (snd hs).

End Script.
End Demo.

(** ** A small engine to run the script on

    Three actuators owned by the script (two fingers, then the slider added
    last), a fourth one it does not own, two degrees of freedom, and a
    contact buffer longer than [ncon]. *)
Module Bench.
Import Py Demo.
Local Open Scope string_scope.
Local Open Scope Z_scope.

Definition zero : float := S754_zero false.
Definition one : float := Eval vm_compute in literal 1%float.

Definition lookup_name (table : list (string * Z)) (kind name : string) : result Z :=
  match List.find (fun p => String.eqb (fst p) name) table with
  | Some p => Ok (snd p)
  | None => Raise (ExternalError kind)
  end.

Definition geom_names (id : Z) : result (option string) :=
  match id with
  | 0 => Ok (Some "floor")
  | 1 => Ok (Some "table_collision")
  | 2 => Ok (Some "box_g0")
  | 3 => Ok None
  | _ => Raise (ExternalError "geom")
  end.

(** The engine step of the bench: it counts the steps taken and reports
    the current height command as the bias force of the slider. *)
Definition bench_step (d : MjData Z) : result (MjData Z) :=
  Ok {| ctrl := ctrl d;
        qfrc_applied := qfrc_applied d;
        qfrc_bias := <[0%nat := default zero (ctrl d !! 2%nat)]> (qfrc_bias d);
        contact := contact d;
        ncon := ncon d;
        hidden := hidden d + 1 |}.

(** The bench, for a given table of joints and of actuators. *)
Definition bench_with (joints actuators : list (string * Z)) : Mujoco :=
  {| hidden_state := Z;
     saved_state := Z;
     get_state := fun d => hidden d;
     set_state := fun d s =>
       {| ctrl := ctrl d; qfrc_applied := qfrc_applied d; qfrc_bias := qfrc_bias d;
          contact := contact d; ncon := ncon d; hidden := s |};
     sim_step := bench_step;
     get_joint_qvel_addr := lookup_name joints "joint";
     actuator_name2id := lookup_name actuators "actuator";
     geom_id2name := geom_names;
     gripper_actuators := ["gripper_r_finger"; "gripper_l_finger"];
     object_id := fun c => 1000 + geom1 c * 10 + geom2 c |}.

Definition joints : list (string * Z) := [("box_joint", 1); ("gripper_z_joint", 0)].
Definition actuators : list (string * Z) :=
  [("gripper_r_finger", 0); ("gripper_l_finger", 1); ("gripper_z", 2); ("spare", 3)].

Definition bench : Mujoco := bench_with joints actuators.

Definition touch (g1 g2 : Z) : Contact :=
  {| geom1 := g1; geom2 := g2;
     friction := [one; one; zero; zero; zero];
     frame := [zero; zero; one; one; zero; zero; zero; one; zero] |}.

Definition data0 : MjData Z :=
  {| ctrl := [zero; zero; zero; one];
     qfrc_applied := [zero; one];
     qfrc_bias := [one; one];
     contact := [touch 0 0; touch 1 2; touch 0 3; touch 2 2];
     ncon := 3;
     hidden := 0 |}.

(** A buffer whose second contact names a geom the model does not have. *)
Definition data_bad_geom : MjData Z :=
  {| ctrl := ctrl data0; qfrc_applied := qfrc_applied data0;
     qfrc_bias := qfrc_bias data0;
     contact := [touch 1 2; touch 2 9];
     ncon := 2;
     hidden := 0 |}.

Definition handles : Handles :=
  {| _ref_joint_vel_indexes := [0]; gripper_z_id := 2; gripper_jaw_ids := [0; 1] |}.

(** The state in which the bench enters the loop, and the same state with
    the counter moved. *)
Definition start : @State bench := @loop_entry bench data0 false true.
Definition at_step (s : Z) : @State bench := @with_step bench start s.

(** The state after the pass the bench makes from [at_step s]. *)
Definition after_pass (s : Z) : @State bench :=
  match @loop_body bench handles (at_step s) with
  | Ok st => st
  | Raise _ => at_step s
  end.

(** The state after the first [n] passes of the bench. *)
Definition after_passes (n : nat) : @State bench :=
  match @iterate bench n handles start with
  | Ok st => st
  | Raise _ => start
  end.

(** The bench without its joints: the first look-up of the script fails. *)
Definition bench_no_joint : Mujoco := bench_with [] actuators.

(** The names of the two geoms of a contact, for the geoms the bench has. *)
Definition name_of (id : Z) : option string :=
  match geom_names id with
  | Ok name => name
  | Raise _ => None
  end.
Definition names (c : Contact) : option string * option string :=
  (name_of (geom1 c), name_of (geom2 c)).

End Bench.

(** ** What is read off the output and the data of a run *)
Module Observe.
Import Py Demo.

(** The calls into the engine and the viewer among the events, in order. *)
Definition engine_calls (evs : list event) : list event :=
  List.filter (fun ev => match ev with SimStep | Render => true | _ => false end) evs.

(** The step numbers printed by line 119, in order. *)
Definition step_lines (evs : list event) : list Z :=
  flat_map (fun ev => match ev with PrintStep s => [s] | _ => [] end) evs.

(** The plans printed by lines 138-142, in order. *)
Definition plan_lines (evs : list event) : list (bool * bool) :=
  flat_map (fun ev => match ev with PrintPlan a b => [(a, b)] | _ => [] end) evs.

(** The writes into the control array among the events, in order. *)
Definition control_writes (evs : list event) : list event :=
  List.filter (fun ev => match ev with SetCtrl _ _ | SetCtrlAt _ _ => true | _ => false end)
              evs.

(** An index NumPy accepts for an array of length [len]. *)
Definition in_range (len : nat) (i : Z) : Prop :=
  - Z.of_nat len <= i < Z.of_nat len.

(** An integer that fits NumPy's index type, a signed 64-bit integer: the
    ids the engine returns are of this kind. *)
Definition fits_intp (i : Z) : Prop := - 2 ^ 63 <= i < 2 ^ 63.

(** The step at which the quotient [step / T] first rounds to [2^1024]. *)
Definition first_overflow : Z := T * (2 ^ 1024 - 2 ^ 970).

(** The lengths of the three arrays the script indexes. *)
Definition sizes {H : Type} (d : MjData H) : nat * nat * nat :=
  (length (ctrl d), length (qfrc_applied d), length (qfrc_bias d)).

(** The data with another contact buffer. *)
Definition with_contact {H : Type} (d : MjData H) (cs : list Contact) : MjData H :=
  {| ctrl := ctrl d; qfrc_applied := qfrc_applied d; qfrc_bias := qfrc_bias d;
     contact := cs; ncon := ncon d; hidden := hidden d |}.

(** The data of the bench that keep its three arrays at their lengths and
    its contacts as they are at the start. *)
Definition bench_good (d : MjData Z) : Prop :=
  sizes d = (4%nat, 2%nat, 2%nat) /\
  contact d = contact Bench.data0 /\ ncon d = 3.

(** Handles with the slider's id outside the control array of the bench,
    and handles of a gripper with one actuator. *)
Definition handles_bad_z : Handles :=
  {| _ref_joint_vel_indexes := [0]; gripper_z_id := 7; gripper_jaw_ids := [0; 1] |}.
Definition handles_one_jaw : Handles :=
  {| _ref_joint_vel_indexes := [0]; gripper_z_id := 2; gripper_jaw_ids := [0] |}.

(** The bench with no contact reported and a stale entry, of a geom the
    model does not have, left in the buffer. *)
Definition idle_data : MjData Z :=
  {| ctrl := ctrl Bench.data0; qfrc_applied := qfrc_applied Bench.data0;
     qfrc_bias := qfrc_bias Bench.data0;
     contact := [Bench.touch 9 9]; ncon := 0; hidden := 0 |}.
Definition idle : @State Bench.bench :=
  @with_step Bench.bench (@loop_entry Bench.bench idle_data false true) 200.

(** The state after [n] passes of the bench from [at_step s]. *)
Definition after_passes_from (s : Z) (n : nat) : @State Bench.bench :=
  match @iterate Bench.bench n Bench.handles (Bench.at_step s) with
  | Ok st => st
  | Raise _ => Bench.at_step s
  end.

(** The buffer of the bench with other entries after the first three. *)
Definition other_buffer : list Contact :=
  [Bench.touch 0 0; Bench.touch 1 2; Bench.touch 0 3; Bench.touch 9 9; Bench.touch 1 1].

End Observe.

(** ** Facts about the Python primitives *)
Module PyFacts.
Import Py.

Lemma digits2_log2 p : Zpos (digits2_pos p) = Z.log2 (Zpos p) + 1.
Proof.
  assert (H : forall q, digits2_pos q = Pos.size q) by (induction q; simpl; congruence).
  rewrite H. destruct p; simpl; lia.
Qed.

Lemma Zdigits2_log2 x : 0 < x -> Zdigits2 x = Z.log2 x + 1.
Proof. destruct x as [|p|p]; try lia. intros _. apply digits2_log2. Qed.

Lemma iter_pos_nat {A} (f : A -> A) p x : SpecFloat.iter_pos f p x = Nat.iter (Pos.to_nat p) f x.
Proof.
  revert x. induction p as [p IH|p IH|]; intros x; cbn [SpecFloat.iter_pos].
  - rewrite !IH, Pos2Nat.inj_xI, <- Nat.iter_succ_r.
    replace (S (2 * Pos.to_nat p))%nat with (Pos.to_nat p + S (Pos.to_nat p))%nat by lia.
    now rewrite Nat.iter_add.
  - rewrite !IH, Pos2Nat.inj_xO.
    replace (2 * Pos.to_nat p)%nat with (Pos.to_nat p + Pos.to_nat p)%nat by lia.
    now rewrite Nat.iter_add.
  - reflexivity.
Qed.

Lemma shr_1_even m : 0 <= m -> shr_1 (exact_rec (2 * m)) = exact_rec m.
Proof. intros Hm. destruct m as [|p|p]; try lia; reflexivity. Qed.

Lemma shr_iter_exact (n : nat) m :
  0 <= m -> Nat.iter n shr_1 (exact_rec (m * 2 ^ Z.of_nat n)) = exact_rec m.
Proof.
  revert m. induction n as [|n IH]; intros m Hm.
  - simpl. now rewrite Z.mul_1_r.
  - rewrite Nat.iter_succ_r, Nat2Z.inj_succ, Z.pow_succ_r by lia.
    replace (m * (2 * 2 ^ Z.of_nat n)) with (2 * (m * 2 ^ Z.of_nat n)) by ring.
    rewrite shr_1_even by nia. now apply IH.
Qed.

Lemma shr_exact m e n :
  0 <= m -> 0 <= n -> shr (exact_rec (m * 2 ^ n)) e n = (exact_rec m, e + n).
Proof.
  intros Hm Hn. destruct n as [|p|p]; try lia.
  - simpl. now rewrite Z.mul_1_r, Z.add_0_r.
  - unfold shr. rewrite iter_pos_nat. f_equal.
    rewrite <- (positive_nat_Z p) at 1. now apply shr_iter_exact.
Qed.

Lemma binary_round_aux_exact (m : positive) (e n : Z) :
  0 <= n ->
  fexp prec emax (Z.log2 (Zpos m) + 1 + n + e) = e + n ->
  e + n <= emax - prec ->
  binary_round_aux prec emax false (Zpos m * 2 ^ n) e loc_Exact = S754_finite false m (e + n).
Proof.
  intros Hn Hf He.
  assert (Hpos : 0 < Zpos m * 2 ^ n) by (apply Z.mul_pos_pos; [lia | apply Z.pow_pos_nonneg; lia]).
  assert (Hd : Zdigits2 (Zpos m * 2 ^ n) = Z.log2 (Zpos m) + 1 + n).
  { rewrite Zdigits2_log2, Z.log2_mul_pow2 by lia. lia. }
  unfold binary_round_aux, shr_fexp. rewrite Hd, Hf.
  replace (e + n - e) with n by lia.
  change (shr_record_of_loc (Zpos m * 2 ^ n) loc_Exact) with (exact_rec (Zpos m * 2 ^ n)).
  rewrite shr_exact by lia.
  cbn [shr_m exact_rec loc_of_shr_record round_nearest_even Zdigits2 shr_r shr_s].
  rewrite digits2_log2.
  replace (Z.log2 (Zpos m) + 1 + (e + n)) with (Z.log2 (Zpos m) + 1 + n + e) by lia.
  rewrite Hf, Z.sub_diag. cbn [shr shr_record_of_loc shr_m].
  destruct (Z.leb_spec (e + n) (emax - prec)); [reflexivity | lia].
Qed.

Lemma mantissa_log2 k : 0 < k < 2 ^ 53 -> 0 < mantissa k /\ Z.log2 (mantissa k) = 52.
Proof.
  intros Hk. unfold mantissa.
  assert (Z.log2 k < 53) by (apply Z.log2_lt_pow2; lia).
  assert (0 <= Z.log2 k) by apply Z.log2_nonneg.
  split.
  - apply Z.mul_pos_pos; [lia | apply Z.pow_pos_nonneg; lia].
  - rewrite Z.log2_mul_pow2 by lia. lia.
Qed.

Lemma SFdiv_exact (b k : positive) :
  Zpos k < 2 ^ 53 ->
  SFdiv prec emax (S754_finite false (b * k) 0) (S754_finite false b 0)
  = S754_finite false (Z.to_pos (mantissa (Zpos k))) (Z.log2 (Zpos k) - 52).
Proof.
  intros Hk.
  assert (HL : 0 <= Z.log2 (Zpos k) < 53)
    by (split; [apply Z.log2_nonneg | apply Z.log2_lt_pow2; lia]).
  destruct (mantissa_log2 (Zpos k)) as [Hm Hml]; [lia|].
  set (L := Z.log2 (Zpos k)) in *.
  set (d := Z.log2 (Zpos (b * k)) - Z.log2 (Zpos b)).
  assert (Hd : d = L \/ d = L + 1).
  { pose proof (Z.log2_mul_below (Zpos b) (Zpos k) ltac:(lia) ltac:(lia)).
    pose proof (Z.log2_mul_above (Zpos b) (Zpos k) ltac:(lia) ltac:(lia)).
    unfold d, L. rewrite Pos2Z.inj_mul. lia. }
  unfold SFdiv, SFdiv_core_binary. cbn [xorb].
  rewrite !Zdigits2_log2 by lia.
  replace (Z.log2 (Zpos (b * k)) + 1 + 0 - (Z.log2 (Zpos b) + 1 + 0)) with d by (unfold d; lia).
  assert (He : Z.min (fexp prec emax d) (0 - 0) = d - 53).
  { unfold fexp, SpecFloat.emin, prec, emax. lia. }
  rewrite He.
  replace (0 - 0 - (d - 53)) with (53 - d) by lia.
  assert (Hm' : (match 53 - d with
                 | 0 => Zpos (b * k)
                 | Zpos _ => Z.shiftl (Zpos (b * k)) (53 - d)
                 | Zneg _ => 0
                 end) = Zpos b * (Zpos k * 2 ^ (53 - d))).
  { assert (Hs : 0 <= 53 - d) by lia. revert Hs. generalize (53 - d). intros s Hs.
    destruct s as [|s|s]; try lia.
    rewrite Z.shiftl_mul_pow2 by lia. lia. }
  rewrite Hm'.
  assert (Hdiv : Z.div_eucl (Zpos b * (Zpos k * 2 ^ (53 - d))) (Zpos b) = (Zpos k * 2 ^ (53 - d), 0)).
  { rewrite (Z.mul_comm (Zpos b)).
    pose proof (Z.div_mul (Zpos k * 2 ^ (53 - d)) (Zpos b) ltac:(lia)) as Hq.
    pose proof (Z.mod_mul (Zpos k * 2 ^ (53 - d)) (Zpos b) ltac:(lia)) as Hr.
    unfold Z.div, Z.modulo in Hq, Hr.
    destruct (Z.div_eucl _ _) as [q r]. congruence. }
  rewrite Hdiv.
  replace (new_location (Zpos b) 0) with loc_Exact
    by (unfold new_location; destruct (Z.even (Zpos b)); reflexivity).
  replace (Zpos k * 2 ^ (53 - d)) with (Zpos (Z.to_pos (mantissa (Zpos k))) * 2 ^ (1 + L - d)).
  2:{ rewrite Z2Pos.id by lia. unfold mantissa. fold L.
      rewrite <- Z.mul_assoc, <- Z.pow_add_r by lia. f_equal. f_equal. lia. }
  rewrite binary_round_aux_exact.
  - f_equal. lia.
  - lia.
  - rewrite Z2Pos.id, Hml by lia. unfold fexp, SpecFloat.emin, prec, emax. lia.
  - unfold prec, emax. lia.
Qed.

(** [int(a / b)] is the exact quotient when [b] divides [a] and the
    quotient is below [2^53]. *)
Lemma int_truediv_exact (b k : Z) :
  0 < b -> 0 <= k < 2 ^ 53 ->
  (let* q := truediv (b * k) b in int_of_float q) = Ok k.
Proof.
  intros Hb Hk. unfold truediv.
  destruct (Z.eqb_spec b 0) as [->|_]; [lia|].
  destruct b as [|b|b]; try lia.
  destruct k as [|k|k]; try lia.
  - rewrite Z.mul_0_r. reflexivity.
  - change (Zpos b * Zpos k) with (Zpos (b * k)). cbn [int_exact].
    rewrite SFdiv_exact by lia. cbn [bind int_of_float SpecFloat.cond_Zopp].
    assert (HL : 0 <= Z.log2 (Zpos k) < 53)
      by (split; [apply Z.log2_nonneg | apply Z.log2_lt_pow2; lia]).
    destruct (mantissa_log2 (Zpos k)) as [Hm _]; [lia|].
    rewrite Z2Pos.id by lia. unfold mantissa. f_equal.
    destruct (Z.leb_spec 0 (Z.log2 (Zpos k) - 52)).
    + replace (Z.log2 (Zpos k)) with 52 by lia. rewrite Z.sub_diag. simpl. lia.
    + replace (- (Z.log2 (Zpos k) - 52)) with (52 - Z.log2 (Zpos k)) by lia.
      apply Z.div_mul. apply Z.pow_nonzero; lia.
Qed.

(** *** Quotients beyond [2^53] *)

Lemma shr_1_spec (mrs : shr_record) :
  0 <= shr_m mrs ->
  shr_m (shr_1 mrs) = shr_m mrs / 2 /\ shr_r (shr_1 mrs) = Z.odd (shr_m mrs).
Proof.
  destruct mrs as [m r s]. simpl. intros Hm.
  destruct m as [|[p|p|]|p]; try lia; simpl; split; try reflexivity.
  - rewrite Pos2Z.inj_xI. apply Z.div_unique with 1; lia.
  - rewrite Pos2Z.inj_xO. apply Z.div_unique with 0; lia.
Qed.

Lemma shr_iter_spec (j : nat) (k : Z) :
  0 <= k ->
  shr_m (Nat.iter (S j) shr_1 (exact_rec k)) = k / 2 ^ (Z.of_nat j + 1) /\
  shr_r (Nat.iter (S j) shr_1 (exact_rec k)) = Z.odd (k / 2 ^ Z.of_nat j).
Proof.
  intros Hk. induction j as [|j [IHm IHr]].
  - change (Nat.iter 1 shr_1 (exact_rec k)) with (shr_1 (exact_rec k)).
    destruct (shr_1_spec (exact_rec k) Hk) as [Em Er]. rewrite Em, Er. simpl.
    now rewrite Z.div_1_r.
  - assert (Hpos : 0 <= shr_m (Nat.iter (S j) shr_1 (exact_rec k)))
      by (rewrite IHm; apply Z.div_pos; [lia | apply Z.pow_pos_nonneg; lia]).
    change (Nat.iter (S (S j)) shr_1 (exact_rec k))
      with (shr_1 (Nat.iter (S j) shr_1 (exact_rec k))).
    destruct (shr_1_spec _ Hpos) as [-> ->]. rewrite IHm.
    rewrite Nat2Z.inj_succ. replace (Z.succ (Z.of_nat j)) with (Z.of_nat j + 1) by lia.
    split; [|reflexivity].
    rewrite Z.div_div by (try apply Z.pow_pos_nonneg; lia).
    rewrite (Z.pow_add_r 2 (Z.of_nat j + 1) 1) by lia. reflexivity.
Qed.

Lemma round_nearest_even_cases (m : Z) (mrs : shr_record) :
  round_nearest_even m (loc_of_shr_record mrs) = m \/
  (round_nearest_even m (loc_of_shr_record mrs) = m + 1 /\ shr_r mrs = true).
Proof.
  destruct mrs as [m' [|] [|]]; simpl; auto.
  destruct (Z.even m); auto.
Qed.


Lemma shr_fexp_int (k : positive) :
  2 ^ 53 <= Zpos k ->
  shr_fexp prec emax (Zpos k) 0 loc_Exact
  = (Nat.iter (S (Z.to_nat (Z.log2 (Zpos k) - 53))) shr_1 (exact_rec (Zpos k)),
     Z.log2 (Zpos k) - 52).
Proof.
  intros Hk.
  assert (HL : 53 <= Z.log2 (Zpos k)) by (apply Z.log2_le_pow2; lia).
  unfold shr_fexp. rewrite Zdigits2_log2 by lia.
  replace (fexp prec emax (Z.log2 (Zpos k) + 1 + 0) - 0) with (Z.log2 (Zpos k) - 52)
    by (unfold fexp, SpecFloat.emin, prec, emax; lia).
  change (shr_record_of_loc (Zpos k) loc_Exact) with (exact_rec (Zpos k)).
  destruct (Z.log2 (Zpos k) - 52) as [|p|p] eqn:En; try lia.
  unfold shr. rewrite iter_pos_nat. f_equal. f_equal. lia.
Qed.

Lemma shr_fexp_kept (m n : Z) :
  2 ^ 52 <= m < 2 ^ 53 -> 0 <= n ->
  shr_fexp prec emax m n loc_Exact = (exact_rec m, n).
Proof.
  intros Hm Hn.
  assert (HL : Z.log2 m = 52).
  { apply Z.log2_unique; [lia|]. exact Hm. }
  unfold shr_fexp. rewrite Zdigits2_log2, HL by lia.
  replace (fexp prec emax (52 + 1 + n) - n) with 0
    by (unfold fexp, SpecFloat.emin, prec, emax; lia).
  reflexivity.
Qed.

Lemma shr_fexp_carry (n : Z) :
  0 <= n ->
  shr_fexp prec emax (2 ^ 53) n loc_Exact = (exact_rec (2 ^ 52), n + 1).
Proof.
  intros Hn. unfold shr_fexp.
  rewrite Zdigits2_log2 by lia. rewrite Z.log2_pow2 by lia.
  replace (fexp prec emax (53 + 1 + n) - n) with 1
    by (unfold fexp, SpecFloat.emin, prec, emax; lia).
  reflexivity.
Qed.

(** An integer of at least 54 bits below [2^1024 - 2^970] rounds to a finite
    binary64 number. *)
Lemma binary_round_aux_int_finite (k : positive) :
  2 ^ 53 <= Zpos k < 2 ^ 1024 - 2 ^ 970 ->
  exists m e,
    binary_round_aux prec emax false (Zpos k) 0 loc_Exact = S754_finite false m e /\ 0 <= e.
Proof.
  intros Hk.
  assert (HL : 53 <= Z.log2 (Zpos k) < 1024)
    by (split; [apply Z.log2_le_pow2 | apply Z.log2_lt_pow2]; lia).
  pose proof (Z.log2_spec (Zpos k) ltac:(lia)) as Hspec.
  unfold binary_round_aux. rewrite shr_fexp_int by lia.
  set (L := Z.log2 (Zpos k)) in *.
  set (j := Z.to_nat (L - 53)).
  destruct (shr_iter_spec j (Zpos k) ltac:(lia)) as [Em Er].
  replace (Z.of_nat j + 1) with (L - 52) in Em by (unfold j; lia).
  replace (Z.of_nat j) with (L - 53) in Er by (unfold j; lia).
  set (mrs := Nat.iter (S j) shr_1 (exact_rec (Zpos k))) in *.
  assert (Hpow : 2 ^ L = 2 ^ 52 * 2 ^ (L - 52))
    by (rewrite <- Z.pow_add_r by lia; f_equal; lia).
  assert (Hpow' : 2 ^ (L - 52) = 2 * 2 ^ (L - 53))
    by (rewrite <- (Z.pow_succ_r 2) by lia; f_equal; lia).
  assert (Hp : 0 < 2 ^ (L - 53)) by (apply Z.pow_pos_nonneg; lia).
  assert (Hm : 2 ^ 52 <= shr_m mrs < 2 ^ 53).
  { rewrite Em. split.
    - apply Z.div_le_lower_bound; lia.
    - apply Z.div_lt_upper_bound; [lia|].
      replace (Z.succ L) with (L + 1) in Hspec by lia.
      rewrite Z.pow_add_r, Hpow in Hspec by lia. lia. }
  destruct (round_nearest_even_cases (shr_m mrs) mrs) as [E | [E Hr]]; rewrite E.
  - rewrite shr_fexp_kept by lia. cbn [shr_m exact_rec].
    destruct (shr_m mrs) as [|m|m] eqn:Emm; try lia.
    exists m, (L - 52). split; [|lia].
    destruct (Z.leb_spec (L - 52) (emax - prec)) as [_|Hgt]; [reflexivity|].
    unfold emax, prec in Hgt. lia.
  - destruct (Z.eq_dec (shr_m mrs + 1) (2 ^ 53)) as [Ec|Hne].
    + rewrite Ec, shr_fexp_carry by lia. cbn [shr_m exact_rec].
      change (2 ^ 52) with (Zpos (2 ^ 52)).
      exists (2 ^ 52)%positive, (L - 52 + 1). split; [|lia].
      destruct (Z.leb_spec (L - 52 + 1) (emax - prec)) as [_|Hgt]; [reflexivity|].
      unfold emax, prec in Hgt. exfalso.
      assert (HL1 : L = 1023) by lia.
      rewrite Hr in Er. symmetry in Er. apply Z.odd_spec in Er.
      destruct Er as [q Eq].
      rewrite HL1 in *.
      change (1023 - 52) with 971 in *. change (1023 - 53) with 970 in *.
      pose proof (Z.div_mod (Zpos k) (2 ^ 970) ltac:(lia)) as Hdm.
      pose proof (Z.mod_pos_bound (Zpos k) (2 ^ 970) ltac:(lia)) as Hmb.
      assert (Hq : Zpos k / 2 ^ 971 = q).
      { change (2 ^ 971) with (2 ^ 970 * 2). rewrite <- Z.div_div by lia.
        rewrite Eq. symmetry. apply Z.div_unique with 1; lia. }
      rewrite Eq in Hdm. lia.
    + rewrite shr_fexp_kept by lia. cbn [shr_m exact_rec].
      destruct (shr_m mrs + 1) as [|m|m] eqn:Emm; try lia.
      exists m, (L - 52). split; [|lia].
      destruct (Z.leb_spec (L - 52) (emax - prec)) as [_|Hgt]; [reflexivity|].
      unfold emax, prec in Hgt. lia.
Qed.

Lemma SFdiv_large (b k : positive) :
  2 ^ 53 <= Zpos k ->
  SFdiv prec emax (S754_finite false (b * k) 0) (S754_finite false b 0)
  = binary_round_aux prec emax false (Zpos k) 0 loc_Exact.
Proof.
  intros Hk.
  assert (HL : 53 <= Z.log2 (Zpos k)) by (apply Z.log2_le_pow2; lia).
  set (L := Z.log2 (Zpos k)) in *.
  set (d := Z.log2 (Zpos (b * k)) - Z.log2 (Zpos b)).
  assert (Hd : d = L \/ d = L + 1).
  { pose proof (Z.log2_mul_below (Zpos b) (Zpos k) ltac:(lia) ltac:(lia)).
    pose proof (Z.log2_mul_above (Zpos b) (Zpos k) ltac:(lia) ltac:(lia)).
    unfold d, L. rewrite Pos2Z.inj_mul. lia. }
  unfold SFdiv, SFdiv_core_binary. cbn [xorb].
  rewrite !Zdigits2_log2 by lia.
  replace (Z.log2 (Zpos (b * k)) + 1 + 0 - (Z.log2 (Zpos b) + 1 + 0)) with d by (unfold d; lia).
  assert (He : Z.min (fexp prec emax d) (0 - 0) = 0).
  { unfold fexp, SpecFloat.emin, prec, emax. lia. }
  rewrite He. change (0 - 0 - 0) with 0. cbv iota.
  assert (Hdiv : Z.div_eucl (Zpos (b * k)) (Zpos b) = (Zpos k, 0)).
  { rewrite Pos2Z.inj_mul, (Z.mul_comm (Zpos b)).
    pose proof (Z.div_mul (Zpos k) (Zpos b) ltac:(lia)) as Hq.
    pose proof (Z.mod_mul (Zpos k) (Zpos b) ltac:(lia)) as Hr.
    unfold Z.div, Z.modulo in Hq, Hr.
    destruct (Z.div_eucl _ _) as [q r]. congruence. }
  rewrite Hdiv.
  replace (new_location (Zpos b) 0) with loc_Exact
    by (unfold new_location; destruct (Z.even (Zpos b)); reflexivity).
  reflexivity.
Qed.

(** [int(a / b)] is defined whenever [b] divides [a] and the quotient is
    below [2^1024 - 2^970], the least integer that rounds to [2^1024]. *)
Lemma int_truediv_defined (b k : Z) :
  0 < b -> 0 <= k < 2 ^ 1024 - 2 ^ 970 ->
  exists n, (let* q := truediv (b * k) b in int_of_float q) = Ok n.
Proof.
  intros Hb Hk.
  destruct (Z.lt_ge_cases k (2 ^ 53)) as [Hs|Hl].
  - exists k. apply int_truediv_exact; lia.
  - unfold truediv.
    destruct (Z.eqb_spec b 0) as [->|_]; [lia|].
    destruct b as [|b|b]; try lia.
    destruct k as [|k|k]; try lia.
    change (Zpos b * Zpos k) with (Zpos (b * k)). cbn [int_exact].
    rewrite SFdiv_large by lia.
    destruct (binary_round_aux_int_finite k ltac:(lia)) as (m & e & -> & He).
    cbn [bind int_of_float]. eauto.
Qed.

End PyFacts.

(** ** Facts about the script *)
Module DemoFacts.
Import Py Demo Observe PyFacts.

Lemma bind_ok {A B} (m : result A) (k : A -> result B) (b : B) :
  (let* a := m in k a) = Ok b -> exists a, m = Ok a /\ k a = Ok b.
Proof. destruct m as [a|e]; simpl; [eauto | discriminate]. Qed.

Lemma bind_raise {A B} (m : result A) (k : A -> result B) (e : exn) :
  m = Raise e -> (let* a := m in k a) = Raise e.
Proof. now intros ->. Qed.

(** Splits a hypothesis [bind m k = Ok b] into its two halves. *)
Ltac inv_bind_as H x :=
  let H1 := fresh H "a" in
  let H2 := fresh H "b" in
  apply bind_ok in H; destruct H as (x & H1 & H2).

Tactic Notation "inv_bind" hyp(H) "as" ident(x) := inv_bind_as H x.
Tactic Notation "inv_bind" hyp(H) := let a := fresh "r" in inv_bind_as H a.

(** *** Indices *)

Lemma norm_index_nonneg (len : nat) (i : Z) :
  0 <= i < Z.of_nat len -> norm_index len i = Ok (Z.to_nat i).
Proof.
  intros Hi. unfold norm_index.
  destruct (Z.leb_spec 0 i), (Z.ltb_spec i (Z.of_nat len)); simpl; try lia. reflexivity.
Qed.

Lemma norm_index_lt (len : nat) (i : Z) (n : nat) :
  norm_index len i = Ok n -> (n < len)%nat.
Proof.
  unfold norm_index.
  destruct (Z.leb_spec 0 i), (Z.ltb_spec i (Z.of_nat len)); simpl;
    try (intros [= <-]; lia);
    destruct (Z.leb_spec (- Z.of_nat len) i), (Z.ltb_spec i 0); simpl;
    try discriminate; intros [= <-]; lia.
Qed.

Lemma norm_index_nonneg_inv (len : nat) (i : Z) (n : nat) :
  0 <= i -> norm_index len i = Ok n -> n = Z.to_nat i /\ i < Z.of_nat len.
Proof.
  intros Hi. unfold norm_index.
  destruct (Z.leb_spec 0 i), (Z.ltb_spec i (Z.of_nat len)); simpl; try lia.
  - intros [= <-]. lia.
  - destruct (Z.leb_spec (- Z.of_nat len) i), (Z.ltb_spec i 0); simpl; try lia; discriminate.
Qed.

Lemma getitem_seq (i : Z) :
  0 <= i < 4 -> exists plan, getitem seq i = Ok plan /\ seq !! Z.to_nat i = Some plan.
Proof.
  intros Hi. unfold getitem. rewrite norm_index_nonneg by (simpl; lia). simpl.
  assert (Hc : i = 0 \/ i = 1 \/ i = 2 \/ i = 3) by lia.
  destruct Hc as [-> | [-> | [-> | ->]]]; simpl; eauto.
Qed.

Lemma slice_prefix {A} (l : list A) (n : Z) :
  0 <= n -> slice l 0 n = take (Z.to_nat n) l.
Proof.
  intros Hn. unfold slice.
  destruct (Z.ltb_spec n 0) as [|_]; [lia|]. simpl (0 <? 0).
  cbv iota. replace (Z.min 0 (Z.of_nat (length l))) with 0 by lia.
  rewrite Z.sub_0_r. change (Z.to_nat 0) with 0%nat. rewrite drop_0.
  destruct (Z.le_ge_cases n (Z.of_nat (length l))).
  - now rewrite Z.min_l by lia.
  - rewrite Z.min_r, Nat2Z.id by lia. rewrite !take_ge by lia. reflexivity.
Qed.

(** *** The plan index *)

Lemma plan_index_exact (k : Z) :
  0 <= k < 2 ^ 53 -> plan_index (T * k) = Ok (k mod 4).
Proof.
  intros Hk. unfold plan_index.
  pose proof (int_truediv_exact T k ltac:(unfold T; lia) Hk) as H.
  destruct (truediv (T * k) T) as [q|e]; simpl in *; [|discriminate].
  rewrite H. reflexivity.
Qed.

Lemma plan_index_defined (k : Z) :
  0 <= k < 2 ^ 1024 - 2 ^ 970 -> exists i, plan_index (T * k) = Ok i.
Proof.
  intros Hk. unfold plan_index.
  destruct (int_truediv_defined T k ltac:(unfold T; lia) Hk) as (n & H).
  destruct (truediv (T * k) T) as [q|e]; simpl in *; [|discriminate].
  rewrite H. simpl. eauto.
Qed.

Lemma plan_index_first_overflow : plan_index first_overflow = Raise OverflowError.
Proof. vm_compute. reflexivity. Qed.

(** A fancy assignment of two values succeeds on two indices only. *)
Lemma put_at_pair_ids {A} (a c : list A) (ids : list Z) (f0 f1 : A) :
  put_at a ids [f0; f1] = Ok c -> exists j0 j1, ids = [j0; j1].
Proof.
  destruct ids as [|j0 [|j1 [|j2 ids]]]; try discriminate; eauto.
Qed.

(** X2: whenever the plan index has a value, it is one of 0, 1, 2, 3 and
    the look-up in [seq] succeeds. *)
Lemma plan_index_in_bounds (s i : Z) :
  plan_index s = Ok i -> 0 <= i < 4 /\ exists plan, getitem seq i = Ok plan.
Proof.
  unfold plan_index. intros H. inv_bind H as q. inv_bind Hb as n. injection Hbb as <-.
  unfold mod_. simpl Z.of_nat.
  pose proof (Z.mod_pos_bound n 4 ltac:(lia)) as Hm. split; [exact Hm|].
  destruct (getitem_seq (n mod 4) Hm) as (plan & Hp & _). eauto.
Qed.

Section Facts.
Context {engine : Mujoco}.
Implicit Types (st : State) (h : Handles).

Lemma select_plan_off st : step st mod T <> 0 -> select_plan st = Ok st.
Proof.
  intros H. unfold select_plan, mod_. destruct (Z.eqb_spec (step st mod T) 0); [lia|reflexivity].
Qed.

Lemma select_plan_on st :
  step st mod T = 0 ->
  select_plan st =
    (let* i := plan_index (step st) in
     let* plan := getitem seq i in
     Ok (emit (with_flags st (fst plan) (snd plan)) [PrintPlan (fst plan) (snd plan)])).
Proof.
  intros H. unfold select_plan, mod_. rewrite H. reflexivity.
Qed.

Lemma select_plan_exact st (k : Z) :
  0 <= k < 2 ^ 53 -> step st = T * k ->
  exists plan, seq !! Z.to_nat (k mod 4) = Some plan /\
    select_plan st = Ok (emit (with_flags st (fst plan) (snd plan)) [PrintPlan (fst plan) (snd plan)]).
Proof.
  intros Hk Hs.
  destruct (getitem_seq (k mod 4)) as (plan & Hg & Hl); [apply Z.mod_pos_bound; lia|].
  exists plan. split; [exact Hl|].
  rewrite select_plan_on by (rewrite Hs, Z.mul_comm; apply Z.mod_mul; unfold T; lia).
  rewrite Hs, plan_index_exact by exact Hk. simpl. rewrite Hg. reflexivity.
Qed.

(** *** What each part of the body leaves alone *)

Lemma emit_emit st (a b : list event) : emit (emit st a) b = emit st (a ++ b).
Proof. unfold emit. simpl. now rewrite app_assoc. Qed.

Lemma emit_nil st : emit st [] = st.
Proof. destruct st. unfold emit. simpl. now rewrite app_nil_r. Qed.

(** The contact loop only appends lines: they depend on the contacts
    visited, not on the state. *)
Lemma report_contacts_lines (cs : list Contact) st :
  report_contacts cs st = lift (emit st) (contact_lines cs).
Proof.
  revert st. induction cs as [|c cs IH]; intros st; simpl.
  - now rewrite emit_nil.
  - destruct (geom_id2name (geom1 c)) as [n1|e]; simpl; [|reflexivity].
    destruct (geom_id2name (geom2 c)) as [n2|e]; simpl; [|reflexivity].
    rewrite !IH. unfold lift, lines_of. rewrite slice_prefix by lia.
    destruct (contact_lines cs) as [ls|e]; simpl; [|now destruct (_ && _)].
    destruct (name_eqb n1 "floor"%string && name_eqb n2 "floor"%string); simpl; [reflexivity|].
    now rewrite emit_emit.
Qed.

Lemma diagnostics_off st : step st mod 100 <> 0 -> diagnostics st = Ok st.
Proof.
  intros H. unfold diagnostics, mod_.
  destruct (Z.eqb_spec (step st mod 100) 0); [lia|reflexivity].
Qed.

Lemma diagnostics_on st :
  step st mod 100 = 0 ->
  diagnostics st =
    lift (fun ls => emit st (PrintStep (step st) :: ls))
         (contact_lines (slice (contact (sim st)) 0 (ncon (sim st)))).
Proof.
  intros H. unfold diagnostics, mod_. rewrite H. simpl.
  rewrite report_contacts_lines. unfold lift.
  destruct (contact_lines _); simpl; [|reflexivity]. now rewrite emit_emit.
Qed.

(** Diagnostics add lines to the output and change nothing else. *)
Lemma diagnostics_frame st st' :
  diagnostics st = Ok st' -> exists ls, st' = emit st ls.
Proof.
  destruct (Z.eq_dec (step st mod 100) 0) as [H|H].
  - rewrite diagnostics_on by exact H. unfold lift. intros Hd. inv_bind Hd.
    injection Hdb as <-. eauto.
  - rewrite diagnostics_off by exact H. intros [= <-]. exists []. now rewrite emit_nil.
Qed.

Lemma select_plan_frame st st' :
  select_plan st = Ok st' ->
  sim st' = sim st /\ step st' = step st /\ exists ls, out st' = out st ++ ls.
Proof.
  destruct (Z.eq_dec (step st mod T) 0) as [H|H].
  - rewrite select_plan_on by exact H. intros Hs. inv_bind Hs. inv_bind Hsb.
    injection Hsbb as <-. simpl. eauto.
  - rewrite select_plan_off by exact H. intros [= <-].
    repeat split. exists []. now rewrite app_nil_r.
Qed.

(** The two control writes, with the targets the flags select. *)
Lemma write_controls_command h st :
  write_controls h st =
    command h st (if gripper_z_is_low st then gripper_z_low else gripper_z_high)
                 (if gripper_is_closed st then gripper_closed else gripper_open).
Proof.
  unfold write_controls, command, set_ctrl.
  destruct (gripper_z_is_low st);
    (destruct (setitem _ _ _) as [c|e]; simpl; [|reflexivity]);
    destruct (gripper_is_closed st); reflexivity.
Qed.

Lemma put_at_two {A} (a : list A) (j0 j1 : Z) (f0 f1 : A) :
  put_at a [j0; j1] [f0; f1] =
    (let* n0 := norm_index (length a) j0 in
     let* n1 := norm_index (length a) j1 in
     Ok (<[n1 := f1]> (<[n0 := f0]> a))).
Proof.
  unfold put_at. simpl.
  destruct (norm_index (length a) j0); simpl; [|reflexivity].
  destruct (norm_index (length a) j1); reflexivity.
Qed.

(** A successful pair of control writes, for a two-fingered gripper. *)
Lemma command_two h st st' (v f0 f1 : float) (j0 j1 : Z) :
  gripper_jaw_ids h = [j0; j1] ->
  command h st v [f0; f1] = Ok st' ->
  exists nz n0 n1,
    norm_index (length (ctrl (sim st))) (gripper_z_id h) = Ok nz /\
    norm_index (length (ctrl (sim st))) j0 = Ok n0 /\
    norm_index (length (ctrl (sim st))) j1 = Ok n1 /\
    st' = emit (with_sim st (with_ctrl (sim st)
                 (<[n1 := f1]> (<[n0 := f0]> (<[nz := v]> (ctrl (sim st)))))))
               [SetCtrl (gripper_z_id h) v; SetCtrlAt [j0; j1] [f0; f1]].
Proof.
  intros Hj H. unfold command, set_ctrl, set_ctrl_at in H. rewrite Hj in H.
  inv_bind H as st1. inv_bind Ha as c1. injection Hab as <-.
  unfold setitem in Haa. inv_bind Haa as nz. injection Haab as <-.
  inv_bind Hb as c2. injection Hbb as <-. simpl in Hba.
  rewrite put_at_two, length_insert in Hba. inv_bind Hba as n0. inv_bind Hbab as n1.
  injection Hbabb as <-.
  exists nz, n0, n1. repeat split; try assumption.
  unfold emit, with_sim, with_ctrl. simpl. now rewrite <- app_assoc.
Qed.

Lemma command_frame h st st' (v : float) (fs : list float) :
  command h st v fs = Ok st' ->
  step st' = step st /\ gripper_z_is_low st' = gripper_z_is_low st /\
  gripper_is_closed st' = gripper_is_closed st /\
  qfrc_applied (sim st') = qfrc_applied (sim st) /\
  qfrc_bias (sim st') = qfrc_bias (sim st) /\
  contact (sim st') = contact (sim st) /\ ncon (sim st') = ncon (sim st) /\
  hidden (sim st') = hidden (sim st) /\
  out st' = out st ++ [SetCtrl (gripper_z_id h) v; SetCtrlAt (gripper_jaw_ids h) fs].
Proof.
  unfold command, set_ctrl, set_ctrl_at. intros H.
  inv_bind H as st1. inv_bind Ha as c1. injection Hab as <-.
  inv_bind Hb as c2. injection Hbb as <-. simpl. now rewrite <- app_assoc.
Qed.

(** One successful pass, taken apart. *)
Lemma loop_body_inv h st st' :
  loop_body h st = Ok st' ->
  exists st1 st2 st3 d vals q,
    diagnostics st = Ok st1 /\
    select_plan st1 = Ok st2 /\
    write_controls h st2 = Ok st3 /\
    sim_step (sim st3) = Ok d /\
    take_at (qfrc_bias d) (_ref_joint_vel_indexes h) = Ok vals /\
    put_at (qfrc_applied d) (_ref_joint_vel_indexes h) vals = Ok q /\
    st' = increment
            (emit (with_sim st3 (with_qfrc_applied d q))
                  [SimStep; SetForceAt (_ref_joint_vel_indexes h) vals; Render]).
Proof.
  unfold loop_body. intros H.
  inv_bind H as st1. inv_bind Hb as st2. inv_bind Hbb as st3.
  inv_bind Hbbb as st4. inv_bind Hbbbb as st5. injection Hbbbbb as <-.
  unfold step_engine in Hbbba. inv_bind Hbbba as d. injection Hbbbab as <-.
  unfold compensate_gravity in Hbbbba. simpl in Hbbbba.
  inv_bind Hbbbba as vals. inv_bind Hbbbbab as q. injection Hbbbbabb as <-.
  exists st1, st2, st3, d, vals, q. repeat split; try assumption.
  unfold render, increment, emit, with_sim. simpl. now rewrite <- !app_assoc.
Qed.

Lemma gripper_tables_two (closed : bool) :
  exists f0 f1, (if closed then gripper_closed else gripper_open) = [f0; f1].
Proof. destruct closed; unfold gripper_closed, gripper_open; eauto. Qed.

Lemma before_controls st st1 st2 :
  diagnostics st = Ok st1 -> select_plan st1 = Ok st2 ->
  sim st2 = sim st /\ step st2 = step st /\ exists ls, out st2 = out st ++ ls.
Proof.
  intros Hd Hp. apply diagnostics_frame in Hd as (ls & ->).
  apply select_plan_frame in Hp as (Hs & Hc & ls' & Ho). simpl in *.
  repeat split; try assumption. exists (ls ++ ls'). now rewrite Ho, app_assoc.
Qed.

(** The decimal literals of lines 98-106 behind the four setpoint constants. *)
Lemma setpoints_are_literals :
  gripper_z_low = literal 0.07%float /\
  gripper_z_high = literal (-0.02)%float /\
  gripper_closed = [literal 0.020833%float; literal (-0.020833)%float] /\
  gripper_open = [literal (-0.0115)%float; literal 0.0115%float].
Proof. repeat split; vm_compute; reflexivity. Qed.

(** C2: in every pass that completes, the active pair (the flags after the
    plan selection of that pass) decides what is written: the height entry
    of the control array holds [gripper_z_low] (0.07) when
    [gripper_z_is_low] and [gripper_z_high] (-0.02) otherwise, the two
    finger entries hold [gripper_closed] when [gripper_is_closed] and
    [gripper_open] otherwise; the engine is stepped once on the array so
    written, and the events of the pass from the first write on are: the
    two writes, the step, the force copy, the render. *)
Theorem controls_written_before_step h st st' (j0 j1 : Z) :
  loop_body h st = Ok st' ->
  gripper_jaw_ids h = [j0; j1] ->
  0 <= gripper_z_id h -> 0 <= j0 -> 0 <= j1 ->
  gripper_z_id h <> j0 -> gripper_z_id h <> j1 -> j0 <> j1 ->
  exists st2 st3 d vals,
    (let* s := diagnostics st in select_plan s) = Ok st2 /\
    write_controls h st2 = Ok st3 /\
    sim_step (sim st3) = Ok d /\
    ctrl (sim st3) !! Z.to_nat (gripper_z_id h)
      = Some (if gripper_z_is_low st2 then gripper_z_low else gripper_z_high) /\
    [ctrl (sim st3) !! Z.to_nat j0; ctrl (sim st3) !! Z.to_nat j1]
      = List.map Some (if gripper_is_closed st2 then gripper_closed else gripper_open) /\
    out st' = out st2 ++
      [SetCtrl (gripper_z_id h)
               (if gripper_z_is_low st2 then gripper_z_low else gripper_z_high);
       SetCtrlAt [j0; j1]
               (if gripper_is_closed st2 then gripper_closed else gripper_open);
       SimStep;
       SetForceAt (_ref_joint_vel_indexes h) vals;
       Render].
Proof.
  intros H Hj Hz H0 H1 Hz0 Hz1 H01.
  apply loop_body_inv in H as (st1 & st2 & st3 & d & vals & q & Hd & Hp & Hw & Hs & _ & _ & ->).
  exists st2, st3, d, vals. rewrite Hd. simpl.
  repeat split; try assumption.
  all: rewrite write_controls_command in Hw.
  all: destruct (gripper_tables_two (gripper_is_closed st2)) as (f0 & f1 & Hf).
  all: rewrite Hf in *.
  all: apply (command_two _ _ _ _ _ _ _ _ Hj) in Hw as (nz & n0 & n1 & Hnz & Hn0 & Hn1 & ->).
  all: apply norm_index_nonneg_inv in Hnz as [-> Lz]; [|assumption].
  all: apply norm_index_nonneg_inv in Hn0 as [-> L0]; [|assumption].
  all: apply norm_index_nonneg_inv in Hn1 as [-> L1]; [|assumption].
  - simpl. rewrite !list_lookup_insert_ne by lia.
    apply list_lookup_insert_eq. lia.
  - simpl. rewrite list_lookup_insert_ne by lia.
    rewrite !list_lookup_insert_eq by (rewrite ?length_insert; lia). reflexivity.
  - simpl. now rewrite <- app_assoc.
Qed.

(** C4: in every pass that completes, the control array handed to the
    engine is the array the pass started with, overwritten at the place of
    the height actuator and at the places of the two finger actuators, with
    values from the two tables; it has the same length, every other entry
    is as it was, and the script does not write into the array again before
    the pass ends. *)
Theorem only_owned_controls_written h st st' (j0 j1 : Z) :
  loop_body h st = Ok st' ->
  gripper_jaw_ids h = [j0; j1] ->
  exists st3 d nz n0 n1 v f0 f1,
    (let* s := diagnostics st in
     let* s := select_plan s in
     write_controls h s) = Ok st3 /\
    sim_step (sim st3) = Ok d /\
    norm_index (length (ctrl (sim st))) (gripper_z_id h) = Ok nz /\
    norm_index (length (ctrl (sim st))) j0 = Ok n0 /\
    norm_index (length (ctrl (sim st))) j1 = Ok n1 /\
    (v = gripper_z_low \/ v = gripper_z_high) /\
    ([f0; f1] = gripper_closed \/ [f0; f1] = gripper_open) /\
    ctrl (sim st3) = <[n1 := f1]> (<[n0 := f0]> (<[nz := v]> (ctrl (sim st)))) /\
    length (ctrl (sim st3)) = length (ctrl (sim st)) /\
    (forall n : nat, n <> nz -> n <> n0 -> n <> n1 ->
       ctrl (sim st3) !! n = ctrl (sim st) !! n) /\
    ctrl (sim st') = ctrl d.
Proof.
  intros H Hj.
  apply loop_body_inv in H as (st1 & st2 & st3 & d & vals & q & Hd & Hp & Hw & Hs & _ & _ & ->).
  destruct (before_controls _ _ _ Hd Hp) as (Hsim & _ & _).
  pose proof Hw as Hw'. rewrite write_controls_command in Hw'.
  destruct (gripper_tables_two (gripper_is_closed st2)) as (f0 & f1 & Hf).
  rewrite Hf in Hw'.
  apply (command_two _ _ _ _ _ _ _ _ Hj) in Hw' as (nz & n0 & n1 & Hnz & Hn0 & Hn1 & E).
  rewrite Hsim in Hnz, Hn0, Hn1, E.
  exists st3, d, nz, n0, n1,
    (if gripper_z_is_low st2 then gripper_z_low else gripper_z_high), f0, f1.
  assert (Hc : ctrl (sim st3) =
    <[n1 := f1]> (<[n0 := f0]> (<[nz := if gripper_z_is_low st2 then gripper_z_low
                                       else gripper_z_high]> (ctrl (sim st)))))
    by (rewrite E; reflexivity).
  rewrite Hd. simpl. rewrite Hp. simpl. rewrite Hc.
  repeat split; try assumption.
  - destruct (gripper_z_is_low st2); auto.
  - rewrite <- Hf. destruct (gripper_is_closed st2); auto.
  - now rewrite !length_insert.
  - intros n Nz N0 N1. now rewrite !list_lookup_insert_ne by congruence.
Qed.

(** C5: in every pass that completes, after the engine step the entry of
    [qfrc_applied] at the velocity address of the joint holds the entry of
    the engine's [qfrc_bias] at that address; no other entry of
    [qfrc_applied] and no other array of the engine's output is changed;
    and the copy stands between the step and the render in the events of
    the pass. *)
Theorem gravity_copy_after_step h st st' (a : Z) :
  loop_body h st = Ok st' ->
  _ref_joint_vel_indexes h = [a] ->
  0 <= a ->
  exists st3 d v,
    (let* s := diagnostics st in
     let* s := select_plan s in
     write_controls h s) = Ok st3 /\
    sim_step (sim st3) = Ok d /\
    qfrc_bias d !! Z.to_nat a = Some v /\
    qfrc_applied (sim st') !! Z.to_nat a = Some v /\
    (forall n : nat, n <> Z.to_nat a ->
       qfrc_applied (sim st') !! n = qfrc_applied d !! n) /\
    length (qfrc_applied (sim st')) = length (qfrc_applied d) /\
    qfrc_bias (sim st') = qfrc_bias d /\
    ctrl (sim st') = ctrl d /\
    contact (sim st') = contact d /\
    ncon (sim st') = ncon d /\
    hidden (sim st') = hidden d /\
    out st' = out st3 ++ [SimStep; SetForceAt [a] [v]; Render].
Proof.
  intros H Ha Hnn.
  apply loop_body_inv in H as (st1 & st2 & st3 & d & vals & q & Hd & Hp & Hw & Hs & Ht & Hq & ->).
  rewrite Ha in Ht, Hq |- *.
  unfold take_at in Ht. simpl in Ht. inv_bind Ht as v. injection Htb as <-.
  unfold getitem in Hta. inv_bind Hta as n.
  apply norm_index_nonneg_inv in Htaa as [-> Lb]; [|assumption].
  destruct (qfrc_bias d !! Z.to_nat a) as [v'|] eqn:E; [|discriminate].
  injection Htab as ->.
  unfold put_at in Hq. simpl in Hq. inv_bind Hq as ns. inv_bind Hqa as m.
  injection Hqab as <-. injection Hqb as <-.
  apply norm_index_nonneg_inv in Hqaa as [-> La]; [|assumption].
  exists st3, d, v. rewrite Hd. simpl. rewrite Hp. simpl.
  repeat split; try assumption.
  - apply list_lookup_insert_eq. lia.
  - intros n Hn. now rewrite list_lookup_insert_ne by congruence.
  - now rewrite length_insert.
Qed.

(** *** The step counter *)

Lemma loop_body_step h st st' : loop_body h st = Ok st' -> step st' = step st + 1.
Proof.
  intros H.
  apply loop_body_inv in H as (st1 & st2 & st3 & d & vals & q & Hd & Hp & Hw & _ & _ & _ & ->).
  destruct (before_controls _ _ _ Hd Hp) as (_ & Hs & _).
  rewrite write_controls_command in Hw. apply command_frame in Hw as (Hs3 & _).
  simpl. lia.
Qed.

Lemma iterate_step (n : nat) h st st' :
  iterate n h st = Ok st' -> step st' = step st + Z.of_nat n.
Proof.
  revert st. induction n as [|n IH]; intros st; simpl.
  - intros [= <-]. lia.
  - intros H. inv_bind H as st1. apply loop_body_step in Ha. apply IH in Hb. lia.
Qed.

Lemma lift_lift {A B C} (f : A -> B) (g : B -> C) (m : result A) :
  lift g (lift f m) = lift (fun a => g (f a)) m.
Proof. now destruct m. Qed.

Lemma report_contacts_with_step (cs : list Contact) st (s : Z) :
  report_contacts cs (with_step st s) = lift (fun x => with_step x s) (report_contacts cs st).
Proof. rewrite !report_contacts_lines, lift_lift. reflexivity. Qed.

Lemma write_controls_with_step h st (s : Z) :
  write_controls h (with_step st s) = lift (fun x => with_step x s) (write_controls h st).
Proof.
  rewrite !write_controls_command. unfold command, set_ctrl, set_ctrl_at, lift. simpl.
  destruct (setitem _ _ _); simpl; [|reflexivity].
  destruct (put_at _ _ _); reflexivity.
Qed.

Lemma step_engine_with_step st (s : Z) :
  step_engine (with_step st s) = lift (fun x => with_step x s) (step_engine st).
Proof. unfold step_engine, lift. simpl. now destruct (sim_step (sim st)). Qed.

Lemma compensate_gravity_with_step h st (s : Z) :
  compensate_gravity h (with_step st s)
  = lift (fun x => with_step x s) (compensate_gravity h st).
Proof.
  unfold compensate_gravity, lift. simpl.
  destruct (take_at _ _); simpl; [|reflexivity].
  destruct (put_at _ _ _); reflexivity.
Qed.

Lemma setup_step (d : MjData hidden_state) hs : setup d = Ok hs -> step (snd hs) = 0.
Proof.
  unfold setup. intros H. inv_bind H as idx. inv_bind Hb as z. inv_bind Hbb as jaws.
  injection Hbbb as <-. reflexivity.
Qed.

Lemma main_step (n : nat) (d : MjData hidden_state) st :
  main n d = Ok st -> step st = Z.of_nat n.
Proof.
  unfold main. intros H. inv_bind H as hs.
  apply setup_step in Ha. apply iterate_step in Hb. lia.
Qed.


(** *** The contact report *)

Lemma name_eqb_floor (name : option string) :
  name_eqb name "floor" = true <-> name = Some "floor"%string.
Proof.
  destruct name as [n|]; simpl.
  - rewrite String.eqb_eq. split; congruence.
  - split; discriminate.
Qed.

Lemma lines_of_nil (c : Contact) (n1 n2 : option string) :
  lines_of c n1 n2 = [] <-> n1 = Some "floor"%string /\ n2 = Some "floor"%string.
Proof.
  unfold lines_of. rewrite <- !name_eqb_floor.
  destruct (name_eqb n1 "floor"), (name_eqb n2 "floor"); simpl;
    split; try discriminate; intuition discriminate.
Qed.

Lemma lines_of_other (c : Contact) (n1 n2 : option string) :
  ~ (n1 = Some "floor"%string /\ n2 = Some "floor"%string) ->
  lines_of c n1 n2 =
    [PrintGeoms n1 n2; PrintContactId (object_id c);
     PrintFriction (friction c); PrintNormal (take 3 (frame c))].
Proof.
  intros H. unfold lines_of. rewrite <- !name_eqb_floor in H.
  destruct (name_eqb n1 "floor"), (name_eqb n2 "floor"); simpl; try reflexivity.
  now destruct H.
Qed.

Lemma contact_lines_named (names : Contact -> option string * option string)
      (cs : list Contact) :
  (forall c, In c cs ->
     geom_id2name (geom1 c) = Ok (fst (names c)) /\
     geom_id2name (geom2 c) = Ok (snd (names c))) ->
  contact_lines cs
  = Ok (concat (List.map (fun c => lines_of c (fst (names c)) (snd (names c))) cs)).
Proof.
  induction cs as [|c cs IH]; intros H; simpl; [reflexivity|].
  destruct (H c (or_introl eq_refl)) as [-> ->]. simpl.
  rewrite IH by (intros c' Hc'; apply H; now right). reflexivity.
Qed.

(** C9: at a multiple of 100, when the names of the geoms of the first
    [ncon] contacts are known to the model, the diagnostics add to the
    output the step line and then one group of lines per contact, in the
    order of the engine's buffer: no line for a contact whose two names are
    both [floor], and for every other contact its two names, an id, its
    friction and the first three entries of its frame; nothing but the
    output changes. *)
Theorem contact_report st (names : Contact -> option string * option string) :
  step st mod 100 = 0 ->
  (forall c, In c (slice (contact (sim st)) 0 (ncon (sim st))) ->
     geom_id2name (geom1 c) = Ok (fst (names c)) /\
     geom_id2name (geom2 c) = Ok (snd (names c))) ->
  exists st' (groups : list (list event)),
    diagnostics st = Ok st' /\
    out st' = out st ++ PrintStep (step st) :: concat groups /\
    sim st' = sim st /\ step st' = step st /\
    gripper_z_is_low st' = gripper_z_is_low st /\
    gripper_is_closed st' = gripper_is_closed st /\
    Forall2
      (fun c ls =>
         (fst (names c) = Some "floor"%string /\ snd (names c) = Some "floor"%string /\
          ls = []) \/
         (~ (fst (names c) = Some "floor"%string /\ snd (names c) = Some "floor"%string) /\
          exists id,
            ls = [PrintGeoms (fst (names c)) (snd (names c)); PrintContactId id;
                  PrintFriction (friction c); PrintNormal (take 3 (frame c))]))
      (slice (contact (sim st)) 0 (ncon (sim st))) groups /\
    (0 <= ncon (sim st) ->
     slice (contact (sim st)) 0 (ncon (sim st))
     = take (Z.to_nat (ncon (sim st))) (contact (sim st))).
Proof.
  intros Hs Hn.
  exists (emit st (PrintStep (step st) ::
            concat (List.map (fun c => lines_of c (fst (names c)) (snd (names c)))
                             (slice (contact (sim st)) 0 (ncon (sim st)))))),
    (List.map (fun c => lines_of c (fst (names c)) (snd (names c)))
              (slice (contact (sim st)) 0 (ncon (sim st)))).
  split.
  { rewrite diagnostics_on by exact Hs.
    rewrite (contact_lines_named names) by exact Hn. reflexivity. }
  do 5 (split; [reflexivity|]). split; [|apply slice_prefix].
  generalize (slice (contact (sim st)) 0 (ncon (sim st))). intros cs.
  induction cs as [|c cs IH]; simpl; constructor; [|exact IH].
  destruct (lines_of c (fst (names c)) (snd (names c))) as [|ev ls] eqn:E.
  - left. apply lines_of_nil in E as [E1 E2]. auto.
  - right. assert (Hne : ~ (fst (names c) = Some "floor"%string /\
                            snd (names c) = Some "floor"%string)).
    { intros Hf. apply (lines_of_nil c) in Hf. congruence. }
    split; [exact Hne|]. exists (object_id c). rewrite <- E. now apply lines_of_other.
Qed.

(** *** A pass at a plan change *)

Lemma lines_of_no_writes (c : Contact) (n1 n2 : option string) :
  control_writes (lines_of c n1 n2) = [].
Proof. unfold lines_of. now destruct (_ && _). Qed.

Lemma contact_lines_no_writes (cs : list Contact) (ls : list event) :
  contact_lines cs = Ok ls -> control_writes ls = [].
Proof.
  revert ls. induction cs as [|c cs IH]; intros ls; simpl.
  - now intros [= <-].
  - intros H. inv_bind H as n1. inv_bind Hb as n2. inv_bind Hbb as rest.
    injection Hbbb as <-. unfold control_writes in *.
    rewrite List.filter_app, (IH rest Hbba). fold (control_writes (lines_of c n1 n2)).
    now rewrite lines_of_no_writes.
Qed.

(** A completed pass at a multiple of [T] whose quotient is exact, taken
    apart: the lines of the diagnostics, the plan selected, the array
    handed to the engine and the output. *)
Lemma plan_change_pass h st st' (k : Z) :
  0 <= k < 2 ^ 53 -> step st = T * k ->
  loop_body h st = Ok st' ->
  exists (low closed : bool) lines j0 j1 nz n0 n1 f0 f1 st3 d vals,
    seq !! Z.to_nat (k mod 4) = Some (low, closed) /\
    contact_lines (slice (contact (sim st)) 0 (ncon (sim st))) = Ok lines /\
    gripper_jaw_ids h = [j0; j1] /\
    (if closed then gripper_closed else gripper_open) = [f0; f1] /\
    norm_index (length (ctrl (sim st))) (gripper_z_id h) = Ok nz /\
    norm_index (length (ctrl (sim st))) j0 = Ok n0 /\
    norm_index (length (ctrl (sim st))) j1 = Ok n1 /\
    (let* s := diagnostics st in
     let* s := select_plan s in
     write_controls h s) = Ok st3 /\
    sim_step (sim st3) = Ok d /\
    ctrl (sim st3)
    = <[n1 := f1]> (<[n0 := f0]>
        (<[nz := if low then gripper_z_low else gripper_z_high]> (ctrl (sim st)))) /\
    gripper_z_is_low st' = low /\ gripper_is_closed st' = closed /\
    out st' = out st ++ PrintStep (step st) :: lines ++
      [PrintPlan low closed;
       SetCtrl (gripper_z_id h) (if low then gripper_z_low else gripper_z_high);
       SetCtrlAt [j0; j1] [f0; f1];
       SimStep; SetForceAt (_ref_joint_vel_indexes h) vals; Render].
Proof.
  intros Hk Hs H.
  apply loop_body_inv in H as (st1 & st2 & st3 & d & vals & q & Hd & Hp & Hw & Hst & _ & _ & ->).
  assert (H100 : step st mod 100 = 0).
  { rewrite Hs. unfold T. replace (500 * k) with (5 * k * 100) by lia. apply Z.mod_mul. lia. }
  rewrite diagnostics_on in Hd by exact H100. unfold lift in Hd.
  inv_bind Hd as lines. injection Hdb as <-.
  destruct (select_plan_exact (emit st (PrintStep (step st) :: lines)) k Hk Hs)
    as ([low closed] & Hl & Hp').
  rewrite Hp' in Hp. injection Hp as <-. cbn [fst snd] in *.
  pose proof Hw as Hw'. rewrite write_controls_command in Hw'. cbn in Hw'.
  destruct (gripper_tables_two closed) as (f0 & f1 & Hf). rewrite Hf in Hw'.
  assert (Hj : exists j0 j1, gripper_jaw_ids h = [j0; j1]).
  { unfold command in Hw'. inv_bind Hw' as s1. unfold set_ctrl_at in Hw'b.
    inv_bind Hw'b as c. eapply put_at_pair_ids; eauto. }
  destruct Hj as (j0 & j1 & Hj).
  apply (command_two _ _ _ _ _ _ _ _ Hj) in Hw' as (nz & n0 & n1 & Hnz & Hn0 & Hn1 & E).
  cbn in Hnz, Hn0, Hn1.
  exists low, closed, lines, j0, j1, nz, n0, n1, f0, f1, st3, d, vals.
  rewrite diagnostics_on by exact H100. rewrite Hda. cbn [lift bind].
  rewrite Hp'. cbn [bind fst snd].
  repeat split; try assumption.
  - rewrite E. reflexivity.
  - rewrite E. reflexivity.
  - rewrite E. reflexivity.
  - rewrite E. cbn. rewrite <- !app_assoc. cbn. reflexivity.
Qed.

(** *** The flags before the loop *)

Lemma diagnostics_with_flags st (a b : bool) :
  diagnostics (with_flags st a b) = lift (fun x => with_flags x a b) (diagnostics st).
Proof.
  unfold diagnostics. simpl. destruct (mod_ (step st) 100 =? 0); [|reflexivity].
  rewrite !report_contacts_lines, lift_lift. reflexivity.
Qed.

Lemma select_plan_with_flags st (a b : bool) :
  step st mod T = 0 -> select_plan (with_flags st a b) = select_plan st.
Proof.
  intros H. rewrite !select_plan_on by exact H. reflexivity.
Qed.

Lemma loop_body_with_flags h st (a b : bool) :
  step st mod T = 0 -> loop_body h (with_flags st a b) = loop_body h st.
Proof.
  intros H. unfold loop_body. rewrite diagnostics_with_flags.
  destruct (diagnostics st) as [st1|e] eqn:E; simpl; [|reflexivity].
  apply diagnostics_frame in E as (ls & ->).
  change (with_flags (emit st ls) a b) with (with_flags (emit st ls) a b).
  rewrite (select_plan_with_flags (emit st ls)) by exact H. reflexivity.
Qed.

(** C10: whatever the two flags hold when the loop is entered, the first
    pass, and so every run of at least one pass, is the one that starts
    from the values of the source; in the first pass the plan selection
    sets both flags to [false] (the entry [seq[0]]) before the control
    writes; and when the first pass completes, its only writes into the
    control array are [gripper_z_high] at the slider's place and
    [gripper_open] at the two fingers' places, after the plan line and
    before the engine step, and the array handed to the engine holds them. *)
Theorem initial_flags_are_dead h (d : MjData hidden_state) (low closed : bool) :
  loop_body h (loop_entry d low closed) = loop_body h (loop_entry d false true) /\
  (forall n : nat,
     iterate (S n) h (loop_entry d low closed)
     = iterate (S n) h (loop_entry d false true)) /\
  (forall st1,
     diagnostics (loop_entry d low closed) = Ok st1 ->
     select_plan st1 = Ok (emit (with_flags st1 false false) [PrintPlan false false]) /\
     write_controls h (emit (with_flags st1 false false) [PrintPlan false false])
     = command h (emit (with_flags st1 false false) [PrintPlan false false])
               gripper_z_high gripper_open) /\
  (forall st',
     loop_body h (loop_entry d low closed) = Ok st' ->
     exists lines j0 j1 nz n0 n1 f0 f1 st3 d' vals,
       gripper_z_is_low st' = false /\ gripper_is_closed st' = false /\
       gripper_jaw_ids h = [j0; j1] /\ gripper_open = [f0; f1] /\
       norm_index (length (ctrl d)) (gripper_z_id h) = Ok nz /\
       norm_index (length (ctrl d)) j0 = Ok n0 /\
       norm_index (length (ctrl d)) j1 = Ok n1 /\
       (let* s := diagnostics (loop_entry d low closed) in
        let* s := select_plan s in
        write_controls h s) = Ok st3 /\
       sim_step (sim st3) = Ok d' /\
       ctrl (sim st3) = <[n1 := f1]> (<[n0 := f0]> (<[nz := gripper_z_high]> (ctrl d))) /\
       out st' = PrintStep 0 :: lines ++
         [PrintPlan false false;
          SetCtrl (gripper_z_id h) gripper_z_high;
          SetCtrlAt (gripper_jaw_ids h) gripper_open;
          SimStep; SetForceAt (_ref_joint_vel_indexes h) vals; Render] /\
       control_writes (out st')
       = [SetCtrl (gripper_z_id h) gripper_z_high;
          SetCtrlAt (gripper_jaw_ids h) gripper_open]).
Proof.
  assert (E : loop_body h (loop_entry d low closed)
              = loop_body h (loop_entry d false true)).
  { change (loop_entry d low closed) with (with_flags (loop_entry d false true) low closed).
    now apply loop_body_with_flags. }
  split; [exact E|]. split; [|split].
  - intros n. simpl. now rewrite E.
  - intros st1 H. apply diagnostics_frame in H as (ls & ->). split.
    + rewrite select_plan_on by reflexivity. reflexivity.
    + now rewrite write_controls_command.
  - intros st' H.
    destruct (plan_change_pass h (loop_entry d low closed) st' 0 ltac:(lia) eq_refl H)
      as (lo & cl & lines & j0 & j1 & nz & n0 & n1 & f0 & f1 & st3 & d' & vals
          & Hl & Hc & Hj & Hf & Hnz & Hn0 & Hn1 & Hw & Hst & Hctrl & Hlo & Hcl & Ho).
    simpl in Hl. injection Hl as <- <-. cbn [loop_entry sim out step] in *.
    exists lines, j0, j1, nz, n0, n1, f0, f1, st3, d', vals.
    repeat split; try assumption.
    + rewrite Ho, Hj, Hf. reflexivity.
    + rewrite Ho, Hj, Hf. unfold control_writes. cbn [app List.filter].
      rewrite List.filter_app. fold (control_writes lines).
      rewrite (contact_lines_no_writes _ _ Hc). reflexivity.
Qed.

(** *** Exceptions *)

Lemma mapM_raise {A B} (f : A -> result B) (l1 l2 : list A) (x : A) (e : exn) :
  Forall (fun y => exists b, f y = Ok b) l1 -> f x = Raise e ->
  mapM f (l1 ++ x :: l2) = Raise e.
Proof.
  intros Hl Hx. induction Hl as [|y l1 [b Hy] _ IH]; simpl.
  - now rewrite Hx.
  - now rewrite Hy, IH.
Qed.

Lemma contact_lines_raise (cs1 cs2 : list Contact) (c : Contact) (e : exn) :
  Forall (fun c' => exists n1 n2,
            geom_id2name (geom1 c') = Ok n1 /\ geom_id2name (geom2 c') = Ok n2) cs1 ->
  (geom_id2name (geom1 c) = Raise e \/
   exists n1, geom_id2name (geom1 c) = Ok n1 /\ geom_id2name (geom2 c) = Raise e) ->
  contact_lines (cs1 ++ c :: cs2) = Raise e.
Proof.
  intros Hl Hc. induction Hl as [|c' cs1 (n1 & n2 & H1 & H2) _ IH]; simpl.
  - destruct Hc as [-> | (n1 & -> & ->)]; reflexivity.
  - now rewrite H1, H2, IH.
Qed.

Lemma iterate_raise (n k : nat) h st (e : exn) :
  iterate n h st = Raise e -> iterate (n + k) h st = Raise e.
Proof.
  revert st. induction n as [|n IH]; intros st; simpl; [discriminate|].
  destruct (loop_body h st) as [st1|e1]; simpl; [apply IH | trivial].
Qed.

Lemma iterate_then_raise (n k : nat) h st st' (e : exn) :
  iterate n h st = Ok st' -> loop_body h st' = Raise e ->
  iterate (n + S k) h st = Raise e.
Proof.
  revert st. induction n as [|n IH]; intros st; simpl.
  - intros [= ->] ->. reflexivity.
  - destruct (loop_body h st) as [st1|e1]; simpl; [apply IH | discriminate].
Qed.

(** C8: nothing catches an exception.  A failing look-up of the joint, of
    the slider's actuator or of one of the gripper's actuators ends the
    script with that exception before any pass; a failing look-up of a
    geom name during the contact report, or a failing engine step, ends
    the pass with it; and once a pass has ended with an exception, every
    longer run ends with the same one. *)
Theorem failures_abort (d : MjData hidden_state) (e : exn) :
  (get_joint_qvel_addr "gripper_z_joint" = Raise e ->
   forall n, main n d = Raise e) /\
  (forall a,
     get_joint_qvel_addr "gripper_z_joint" = Ok a ->
     actuator_name2id "gripper_z" = Raise e ->
     forall n, main n d = Raise e) /\
  (forall a z names1 name names2,
     get_joint_qvel_addr "gripper_z_joint" = Ok a ->
     actuator_name2id "gripper_z" = Ok z ->
     gripper_actuators = names1 ++ name :: names2 ->
     Forall (fun x => exists i, actuator_name2id x = Ok i) names1 ->
     actuator_name2id name = Raise e ->
     forall n, main n d = Raise e) /\
  (forall h st cs1 c cs2,
     step st mod 100 = 0 ->
     slice (contact (sim st)) 0 (ncon (sim st)) = cs1 ++ c :: cs2 ->
     Forall (fun c' => exists n1 n2,
               geom_id2name (geom1 c') = Ok n1 /\ geom_id2name (geom2 c') = Ok n2) cs1 ->
     (geom_id2name (geom1 c) = Raise e \/
      exists n1, geom_id2name (geom1 c) = Ok n1 /\ geom_id2name (geom2 c) = Raise e) ->
     loop_body h st = Raise e) /\
  (forall h st st3,
     (let* s := diagnostics st in
      let* s := select_plan s in
      write_controls h s) = Ok st3 ->
     sim_step (sim st3) = Raise e ->
     loop_body h st = Raise e) /\
  (forall h st (n k : nat),
     iterate n h st = Raise e -> iterate (n + k) h st = Raise e) /\
  (forall h st st' (n k : nat),
     iterate n h st = Ok st' -> loop_body h st' = Raise e ->
     iterate (n + S k) h st = Raise e).
Proof.
  repeat apply conj.
  - intros H n. unfold main, setup. simpl. now rewrite H.
  - intros a Ha Hz n. unfold main, setup. simpl. now rewrite Ha, Hz.
  - intros a z names1 name names2 Ha Hz Hg Hok Hname n.
    unfold main, setup. simpl. rewrite Ha, Hz. simpl.
    now rewrite Hg, (mapM_raise _ _ _ _ _ Hok Hname).
  - intros h st cs1 c cs2 Hs Hsl Hok Hc. unfold loop_body.
    rewrite diagnostics_on by exact Hs.
    now rewrite Hsl, (contact_lines_raise _ _ _ _ Hok Hc).
  - intros h st st3 H Hs. unfold loop_body.
    destruct (diagnostics st) as [st1|?]; simpl in *; [|discriminate].
    destruct (select_plan st1) as [st2|?]; simpl in *; [|discriminate].
    rewrite H. simpl. unfold step_engine. now rewrite Hs.
  - intros h st n k. apply iterate_raise.
  - intros h st st' n k. apply iterate_then_raise.
Qed.

(** *** The plan index beyond the exact range of a float *)

(** C1 (the code departs from it): at the step [500 * (2^53 + 1)], a
    multiple of [T], the entry after the one of the step [500 * 2^53] is
    due, [seq[1]]; the quotient [step / T] is not a binary64 number, its
    rounding is [2^53], and the entry selected is [seq[0]] again. *)
Theorem plan_index_stalls_past_2p53 st :
  step st = T * (2 ^ 53 + 1) ->
  step st mod T = 0 /\
  (step st / T) mod 4 = 1 /\
  seq !! 1%nat = Some (true, false) /\
  plan_index (step st - T) = Ok 0 /\
  plan_index (step st) = Ok 0 /\
  select_plan st = Ok (emit (with_flags st false false) [PrintPlan false false]).
Proof.
  intros H.
  assert (P : plan_index (T * (2 ^ 53 + 1)) = Ok 0) by (vm_compute; reflexivity).
  assert (P' : plan_index (T * (2 ^ 53 + 1) - T) = Ok 0) by (vm_compute; reflexivity).
  assert (M : (T * (2 ^ 53 + 1)) mod T = 0) by (vm_compute; reflexivity).
  repeat apply conj.
  - now rewrite H.
  - rewrite H. vm_compute. reflexivity.
  - reflexivity.
  - now rewrite H.
  - now rewrite H.
  - rewrite select_plan_on by (now rewrite H). rewrite H, P. reflexivity.
Qed.

Lemma pass_overflows h st :
  step st = first_overflow ->
  (forall st1, diagnostics st = Ok st1 -> select_plan st1 = Raise OverflowError) /\
  (forall st', loop_body h st <> Ok st').
Proof.
  intros H.
  assert (M : first_overflow mod T = 0) by (vm_compute; reflexivity).
  assert (S : forall st1, diagnostics st = Ok st1 -> select_plan st1 = Raise OverflowError).
  { intros st1 Hd. apply diagnostics_frame in Hd as (ls & ->).
    rewrite select_plan_on by (simpl; now rewrite H). simpl.
    now rewrite H, plan_index_first_overflow. }
  split; [exact S|].
  intros st' Hl. unfold loop_body in Hl. inv_bind Hl as st1. inv_bind Hlb as st2.
  rewrite (S _ Hla) in Hlba. discriminate.
Qed.

(** C7 (the code departs from it): at the step [500 * (2^1024 - 2^970)], a
    multiple of [T], the quotient [step / T] rounds to [2^1024], which is
    not a float: the division raises [OverflowError], and so do the plan
    selection and the pass, which cannot complete.  It is the first such
    step: at every smaller multiple of [T] the index has a value. *)
Theorem plan_lookup_overflows h st :
  step st = first_overflow ->
  0 <= step st /\ step st mod T = 0 /\
  first_overflow = 500 * (2 ^ 1024 - 2 ^ 970) /\
  (forall k, 0 <= T * k < first_overflow -> exists i, plan_index (T * k) = Ok i) /\
  plan_index (step st) = Raise OverflowError /\
  (forall st1, diagnostics st = Ok st1 ->
     select_plan st1 = Raise OverflowError /\ loop_body h st = Raise OverflowError) /\
  (forall st', loop_body h st <> Ok st').
Proof.
  intros H. destruct (pass_overflows h st H) as [S N].
  split; [rewrite H; vm_compute; discriminate|].
  split; [rewrite H; vm_compute; reflexivity|].
  split; [reflexivity|].
  split; [intros k Hk; apply plan_index_defined; unfold first_overflow, T in Hk; lia|].
  split; [rewrite H; apply plan_index_first_overflow|].
  split; [|exact N].
  intros st1 Hd. split; [now apply S|].
  unfold loop_body. rewrite Hd. simpl. now rewrite (S _ Hd).
Qed.

(** *** The order of the phases *)

(** C3 (as amended): in every cycle [c] whose steps are in the range where
    the quotient [step / T] is exact, the passes at the four plan changes
    of the cycle select the pairs of [seq] in its order, and each of them
    that completes writes into the control array, after its plan line and
    before the engine step, the targets of its pair and nothing else: in
    this order, the high target with the fingers open, the low target with
    the fingers open, the low target with the fingers closed, the high
    target with the fingers closed. *)
Theorem cycle_phase_order h st st' (c i : Z) :
  0 <= c -> 4 * c + 3 < 2 ^ 53 ->
  0 <= i < 4 ->
  step st = T * (4 * c + i) ->
  loop_body h st = Ok st' ->
  exists (low closed : bool) height fingers j0 j1 nz n0 n1 f0 f1 st3 d vals pre,
    phase_order !! Z.to_nat i = Some ((low, closed), (height, fingers)) /\
    seq !! Z.to_nat i = Some (low, closed) /\
    gripper_z_is_low st' = low /\ gripper_is_closed st' = closed /\
    gripper_jaw_ids h = [j0; j1] /\ fingers = [f0; f1] /\
    norm_index (length (ctrl (sim st))) (gripper_z_id h) = Ok nz /\
    norm_index (length (ctrl (sim st))) j0 = Ok n0 /\
    norm_index (length (ctrl (sim st))) j1 = Ok n1 /\
    (let* s := diagnostics st in
     let* s := select_plan s in
     write_controls h s) = Ok st3 /\
    sim_step (sim st3) = Ok d /\
    ctrl (sim st3) = <[n1 := f1]> (<[n0 := f0]> (<[nz := height]> (ctrl (sim st)))) /\
    out st' = pre ++
      [PrintPlan low closed;
       SetCtrl (gripper_z_id h) height; SetCtrlAt (gripper_jaw_ids h) fingers;
       SimStep; SetForceAt (_ref_joint_vel_indexes h) vals; Render] /\
    control_writes (out st')
    = control_writes (out st) ++
      [SetCtrl (gripper_z_id h) height; SetCtrlAt (gripper_jaw_ids h) fingers].
Proof.
  intros Hc Hb Hi Hs H.
  destruct (plan_change_pass h st st' (4 * c + i) ltac:(lia) Hs H)
    as (low & closed & lines & j0 & j1 & nz & n0 & n1 & f0 & f1 & st3 & d & vals
        & Hl & Hcl & Hj & Hf & Hnz & Hn0 & Hn1 & Hw & Hst & Hctrl & Hlo & Hclo & Ho).
  replace ((4 * c + i) mod 4) with i in Hl
    by (rewrite Z.add_comm, Z.mul_comm, Z.mod_add, Z.mod_small; lia).
  exists low, closed, (if low then gripper_z_low else gripper_z_high),
    (if closed then gripper_closed else gripper_open),
    j0, j1, nz, n0, n1, f0, f1, st3, d, vals, (out st ++ PrintStep (step st) :: lines).
  assert (Hph : phase_order !! Z.to_nat i
                = Some ((low, closed),
                        (if low then gripper_z_low else gripper_z_high,
                         if closed then gripper_closed else gripper_open))).
  { assert (Hcase : i = 0 \/ i = 1 \/ i = 2 \/ i = 3) by lia.
    destruct Hcase as [-> | [-> | [-> | ->]]]; simpl in Hl; injection Hl as <- <-;
      reflexivity. }
  repeat split; try assumption.
  - rewrite Ho, Hj, Hf, <- app_assoc. reflexivity.
  - rewrite Ho, Hj, Hf. unfold control_writes.
    rewrite List.filter_app. cbn [List.filter]. rewrite List.filter_app.
    fold (control_writes lines). rewrite (contact_lines_no_writes _ _ Hcl). reflexivity.
Qed.

Lemma iterate_snoc (n : nat) h st :
  iterate (S n) h st = (let* s := iterate n h st in loop_body h s).
Proof.
  revert st. induction n as [|n IH]; intros st.
  - simpl. now destruct (loop_body h st).
  - change (iterate (S (S n)) h st) with (let* s := loop_body h st in iterate (S n) h s).
    simpl iterate at 2.
    destruct (loop_body h st) as [s|e]; simpl; [apply IH | reflexivity].
Qed.

Lemma loop_body_flags h st st' :
  loop_body h st = Ok st' ->
  exists st1 st2,
    diagnostics st = Ok st1 /\ select_plan st1 = Ok st2 /\
    step st1 = step st /\
    gripper_z_is_low st1 = gripper_z_is_low st /\
    gripper_is_closed st1 = gripper_is_closed st /\
    gripper_z_is_low st' = gripper_z_is_low st2 /\
    gripper_is_closed st' = gripper_is_closed st2.
Proof.
  intros H.
  apply loop_body_inv in H as (st1 & st2 & st3 & d & vals & q & Hd & Hp & Hw & _ & _ & _ & ->).
  exists st1, st2. rewrite write_controls_command in Hw.
  apply command_frame in Hw as (_ & Hl & Hcl & _).
  pose proof Hd as Hd'. apply diagnostics_frame in Hd' as (ls & ->).
  simpl. repeat split; assumption.
Qed.

(** X1: in a run of fewer than [500 * 2^53] passes, the flags after the pass
    at step [n] are the entry [(n div 500) mod 4] of [seq]. *)
Theorem active_plan_below_2p53 h st0 (n : nat) st :
  step st0 = 0 ->
  Z.of_nat n < T * 2 ^ 53 ->
  iterate (S n) h st0 = Ok st ->
  seq !! Z.to_nat ((Z.of_nat n / T) mod 4)
  = Some (gripper_z_is_low st, gripper_is_closed st).
Proof.
  intros H0. revert st. induction n as [|n IH]; intros st Hn H.
  - simpl in H. inv_bind H as s. injection Hb as <-.
    apply loop_body_flags in Ha as (st1 & st2 & Hd & Hp & Hs & _ & _ & -> & ->).
    destruct (select_plan_exact st1 0 ltac:(lia)) as (plan & Hl & Hp').
    { rewrite Hs, H0. reflexivity. }
    rewrite Hp' in Hp. injection Hp as <-. simpl in *. now destruct plan.
  - rewrite iterate_snoc in H. inv_bind H as s.
    pose proof (iterate_step _ _ _ _ Ha) as Hstep. rewrite H0 in Hstep.
    specialize (IH s ltac:(lia) Ha).
    apply loop_body_flags in Hb as (st1 & st2 & Hd & Hp & Hs & Hl1 & Hc1 & -> & ->).
    destruct (Z.eq_dec (step st1 mod T) 0) as [E|E].
    + assert (Hk : step st1 = T * (step st1 / T))
        by (apply Z.div_exact in E; unfold T in *; lia).
      destruct (select_plan_exact st1 (step st1 / T)) as (plan & Hl & Hp'); [|exact Hk|].
      { unfold T in *. Z.div_mod_to_equations. lia. }
      rewrite Hp' in Hp. injection Hp as <-. simpl.
      replace (Z.of_nat (S n)) with (step st1) by lia.
      rewrite Hl. now destruct plan.
    + rewrite select_plan_off in Hp by exact E. injection Hp as <-.
      rewrite Hl1, Hc1, <- IH.
      replace (Z.of_nat (S n) / T) with (Z.of_nat n / T); [reflexivity|].
      unfold T in *. Z.div_mod_to_equations. lia.
Qed.

End Facts.

(** *** The statements above on the bench *)

Import Bench.

Lemma controls_written_before_step_witness :
  loop_body handles (at_step 1000) = Ok (after_pass 1000) /\
  exists st2 st3 d vals,
    (let* s := diagnostics (at_step 1000) in select_plan s) = Ok st2 /\
    write_controls handles st2 = Ok st3 /\
    sim_step (sim st3) = Ok d /\
    ctrl (sim st3) !! Z.to_nat (gripper_z_id handles)
      = Some (if gripper_z_is_low st2 then gripper_z_low else gripper_z_high) /\
    [ctrl (sim st3) !! Z.to_nat 0; ctrl (sim st3) !! Z.to_nat 1]
      = List.map Some (if gripper_is_closed st2 then gripper_closed else gripper_open) /\
    out (after_pass 1000) = out st2 ++
      [SetCtrl (gripper_z_id handles)
               (if gripper_z_is_low st2 then gripper_z_low else gripper_z_high);
       SetCtrlAt [0; 1]
               (if gripper_is_closed st2 then gripper_closed else gripper_open);
       SimStep;
       SetForceAt (_ref_joint_vel_indexes handles) vals;
       Render].
Proof.
  split; [vm_compute; reflexivity|].
  apply (controls_written_before_step (engine := bench)
           handles (at_step 1000) (after_pass 1000) 0 1);
    [vm_compute; reflexivity | reflexivity | simpl; lia ..].
Defined.

Lemma only_owned_controls_written_witness :
  loop_body handles (at_step 500) = Ok (after_pass 500) /\
  exists st3 d nz n0 n1 v f0 f1,
    (let* s := diagnostics (at_step 500) in
     let* s := select_plan s in
     write_controls handles s) = Ok st3 /\
    sim_step (sim st3) = Ok d /\
    norm_index (length (ctrl (sim (at_step 500)))) (gripper_z_id handles) = Ok nz /\
    norm_index (length (ctrl (sim (at_step 500)))) 0 = Ok n0 /\
    norm_index (length (ctrl (sim (at_step 500)))) 1 = Ok n1 /\
    (v = gripper_z_low \/ v = gripper_z_high) /\
    ([f0; f1] = gripper_closed \/ [f0; f1] = gripper_open) /\
    ctrl (sim st3)
      = <[n1 := f1]> (<[n0 := f0]> (<[nz := v]> (ctrl (sim (at_step 500))))) /\
    length (ctrl (sim st3)) = length (ctrl (sim (at_step 500))) /\
    (forall n : nat, n <> nz -> n <> n0 -> n <> n1 ->
       ctrl (sim st3) !! n = ctrl (sim (at_step 500)) !! n) /\
    ctrl (sim (after_pass 500)) = ctrl d.
Proof.
  split; [vm_compute; reflexivity|].
  apply (only_owned_controls_written (engine := bench)
           handles (at_step 500) (after_pass 500) 0 1);
    [vm_compute; reflexivity | reflexivity].
Defined.

Lemma gravity_copy_after_step_witness :
  loop_body handles (at_step 501) = Ok (after_pass 501) /\
  exists st3 d v,
    (let* s := diagnostics (at_step 501) in
     let* s := select_plan s in
     write_controls handles s) = Ok st3 /\
    sim_step (sim st3) = Ok d /\
    qfrc_bias d !! Z.to_nat 0 = Some v /\
    qfrc_applied (sim (after_pass 501)) !! Z.to_nat 0 = Some v /\
    (forall n : nat, n <> Z.to_nat 0 ->
       qfrc_applied (sim (after_pass 501)) !! n = qfrc_applied d !! n) /\
    length (qfrc_applied (sim (after_pass 501))) = length (qfrc_applied d) /\
    qfrc_bias (sim (after_pass 501)) = qfrc_bias d /\
    ctrl (sim (after_pass 501)) = ctrl d /\
    contact (sim (after_pass 501)) = contact d /\
    ncon (sim (after_pass 501)) = ncon d /\
    hidden (sim (after_pass 501)) = hidden d /\
    out (after_pass 501) = out st3 ++ [SimStep; SetForceAt [0] [v]; Render].
Proof.
  split; [vm_compute; reflexivity|].
  apply (gravity_copy_after_step (engine := bench)
           handles (at_step 501) (after_pass 501) 0);
    [vm_compute; reflexivity | reflexivity | lia].
Defined.

Lemma contact_report_witness :
  step (at_step 300) mod 100 = 0 /\
  exists st' (groups : list (list event)),
    diagnostics (at_step 300) = Ok st' /\
    out st' = out (at_step 300) ++ PrintStep (step (at_step 300)) :: concat groups /\
    sim st' = sim (at_step 300) /\ step st' = step (at_step 300) /\
    gripper_z_is_low st' = gripper_z_is_low (at_step 300) /\
    gripper_is_closed st' = gripper_is_closed (at_step 300) /\
    Forall2
      (fun c ls =>
         (fst (names c) = Some "floor"%string /\ snd (names c) = Some "floor"%string /\
          ls = []) \/
         (~ (fst (names c) = Some "floor"%string /\ snd (names c) = Some "floor"%string) /\
          exists id,
            ls = [PrintGeoms (fst (names c)) (snd (names c)); PrintContactId id;
                  PrintFriction (friction c); PrintNormal (take 3 (frame c))]))
      (slice (contact (sim (at_step 300))) 0 (ncon (sim (at_step 300)))) groups /\
    (0 <= ncon (sim (at_step 300)) ->
     slice (contact (sim (at_step 300))) 0 (ncon (sim (at_step 300)))
     = take (Z.to_nat (ncon (sim (at_step 300)))) (contact (sim (at_step 300)))).
Proof.
  split; [reflexivity|].
  apply (contact_report (engine := bench) (at_step 300) names eq_refl).
  intros c Hc. vm_compute in Hc.
  destruct Hc as [<- | [<- | [<- | []]]]; split; reflexivity.
Defined.

(** What the bench prints at step 300: the contact of the floor with itself
    is passed over, the one of the floor with an unnamed geom is not. *)
Lemma bench_prints_at_300 :
  exists st, diagnostics (at_step 300) = Ok st /\
    List.map (fun ev => match ev with
                        | PrintGeoms n1 n2 => Some (n1, n2)
                        | _ => None
                        end) (out st)
    = [None;
       Some (Some "table_collision"%string, Some "box_g0"%string); None; None; None;
       Some (Some "floor"%string, None); None; None; None].
Proof. eexists. split; vm_compute; reflexivity. Qed.

(** The first pass of the first cycle commands the high target. *)
Lemma first_phase_is_high_and_open :
  exists st1 st2,
    select_plan start = Ok st1 /\
    write_controls handles st1 = Ok st2 /\
    out st2 = [PrintPlan false false;
               SetCtrl 2 gripper_z_high; SetCtrlAt [0; 1] gripper_open] /\
    ctrl (sim st2) !! 2%nat = Some gripper_z_high /\
    gripper_z_high <> gripper_z_low.
Proof.
  do 2 eexists. repeat split; try (vm_compute; reflexivity).
  unfold gripper_z_high, gripper_z_low. discriminate.
Qed.

Lemma cycle_phase_order_witness :
  0 <= 1 /\ 4 * 1 + 3 < 2 ^ 53 /\ 0 <= 2 < 4 /\
  step (at_step 3000) = T * (4 * 1 + 2) /\
  loop_body handles (at_step 3000) = Ok (after_pass 3000) /\
  exists (low closed : bool) height fingers j0 j1 nz n0 n1 f0 f1 st3 d vals pre,
    phase_order !! Z.to_nat 2 = Some ((low, closed), (height, fingers)) /\
    seq !! Z.to_nat 2 = Some (low, closed) /\
    gripper_z_is_low (after_pass 3000) = low /\
    gripper_is_closed (after_pass 3000) = closed /\
    gripper_jaw_ids handles = [j0; j1] /\ fingers = [f0; f1] /\
    norm_index (length (ctrl (sim (at_step 3000)))) (gripper_z_id handles) = Ok nz /\
    norm_index (length (ctrl (sim (at_step 3000)))) j0 = Ok n0 /\
    norm_index (length (ctrl (sim (at_step 3000)))) j1 = Ok n1 /\
    (let* s := diagnostics (at_step 3000) in
     let* s := select_plan s in
     write_controls handles s) = Ok st3 /\
    sim_step (sim st3) = Ok d /\
    ctrl (sim st3)
    = <[n1 := f1]> (<[n0 := f0]> (<[nz := height]> (ctrl (sim (at_step 3000))))) /\
    out (after_pass 3000) = pre ++
      [PrintPlan low closed;
       SetCtrl (gripper_z_id handles) height; SetCtrlAt (gripper_jaw_ids handles) fingers;
       SimStep; SetForceAt (_ref_joint_vel_indexes handles) vals; Render] /\
    control_writes (out (after_pass 3000))
    = control_writes (out (at_step 3000)) ++
      [SetCtrl (gripper_z_id handles) height; SetCtrlAt (gripper_jaw_ids handles) fingers].
Proof.
  assert (H : loop_body handles (at_step 3000) = Ok (after_pass 3000))
    by (vm_compute; reflexivity).
  split; [lia|]. split; [reflexivity|]. split; [lia|]. split; [reflexivity|].
  split; [exact H|].
  apply (cycle_phase_order (engine := bench) handles (at_step 3000) (after_pass 3000) 1 2);
    [lia | reflexivity | lia | reflexivity | exact H].
Defined.

Lemma initial_flags_are_dead_witness :
  loop_body handles (@loop_entry bench data0 true false) = Ok (after_pass 0) /\
  exists lines j0 j1 nz n0 n1 f0 f1 st3 d' vals,
    gripper_z_is_low (after_pass 0) = false /\ gripper_is_closed (after_pass 0) = false /\
    gripper_jaw_ids handles = [j0; j1] /\ gripper_open = [f0; f1] /\
    norm_index (length (ctrl data0)) (gripper_z_id handles) = Ok nz /\
    norm_index (length (ctrl data0)) j0 = Ok n0 /\
    norm_index (length (ctrl data0)) j1 = Ok n1 /\
    (let* s := diagnostics (@loop_entry bench data0 true false) in
     let* s := select_plan s in
     write_controls handles s) = Ok st3 /\
    sim_step (sim st3) = Ok d' /\
    ctrl (sim st3) = <[n1 := f1]> (<[n0 := f0]> (<[nz := gripper_z_high]> (ctrl data0))) /\
    out (after_pass 0) = PrintStep 0 :: lines ++
      [PrintPlan false false;
       SetCtrl (gripper_z_id handles) gripper_z_high;
       SetCtrlAt (gripper_jaw_ids handles) gripper_open;
       SimStep; SetForceAt (_ref_joint_vel_indexes handles) vals; Render] /\
    control_writes (out (after_pass 0))
    = [SetCtrl (gripper_z_id handles) gripper_z_high;
       SetCtrlAt (gripper_jaw_ids handles) gripper_open].
Proof.
  assert (H : loop_body handles (@loop_entry bench data0 true false) = Ok (after_pass 0))
    by (vm_compute; reflexivity).
  split; [exact H|].
  exact (proj2 (proj2 (proj2
           (initial_flags_are_dead (engine := bench) handles data0 true false)))
           (after_pass 0) H).
Defined.

Lemma plan_index_stalls_past_2p53_witness :
  step (at_step (T * (2 ^ 53 + 1))) = T * (2 ^ 53 + 1) /\
  step (at_step (T * (2 ^ 53 + 1))) mod T = 0 /\
  (step (at_step (T * (2 ^ 53 + 1))) / T) mod 4 = 1 /\
  seq !! 1%nat = Some (true, false) /\
  plan_index (step (at_step (T * (2 ^ 53 + 1))) - T) = Ok 0 /\
  plan_index (step (at_step (T * (2 ^ 53 + 1)))) = Ok 0 /\
  select_plan (at_step (T * (2 ^ 53 + 1)))
  = Ok (emit (with_flags (at_step (T * (2 ^ 53 + 1))) false false) [PrintPlan false false]).
Proof.
  split; [reflexivity|].
  apply (plan_index_stalls_past_2p53 (engine := bench) (at_step (T * (2 ^ 53 + 1)))).
  reflexivity.
Defined.

Lemma plan_lookup_overflows_witness :
  step (at_step first_overflow) = first_overflow /\
  0 <= step (at_step first_overflow) /\
  step (at_step first_overflow) mod T = 0 /\
  first_overflow = 500 * (2 ^ 1024 - 2 ^ 970) /\
  (forall k, 0 <= T * k < first_overflow -> exists i, plan_index (T * k) = Ok i) /\
  plan_index (step (at_step first_overflow)) = Raise OverflowError /\
  (forall st1, diagnostics (at_step first_overflow) = Ok st1 ->
     select_plan st1 = Raise OverflowError /\
     loop_body handles (at_step first_overflow) = Raise OverflowError) /\
  (forall st', loop_body handles (at_step first_overflow) <> Ok st').
Proof.
  split; [reflexivity|].
  apply (plan_lookup_overflows (engine := bench) handles (at_step first_overflow)).
  reflexivity.
Defined.

Lemma failures_abort_witness :
  @get_joint_qvel_addr bench_no_joint "gripper_z_joint" = Raise (ExternalError "joint") /\
  @main bench_no_joint 3 data0 = Raise (ExternalError "joint") /\
  @loop_body bench handles (@loop_entry bench data_bad_geom false true)
  = Raise (ExternalError "geom").
Proof.
  split; [reflexivity|]. split.
  - apply (proj1 (failures_abort (engine := bench_no_joint) data0 (ExternalError "joint"))).
    reflexivity.
  - refine (proj1 (proj2 (proj2 (proj2
              (failures_abort (engine := bench) data0 (ExternalError "geom")))))
              handles (@loop_entry bench data_bad_geom false true)
              [touch 1 2] (touch 2 9) [] eq_refl eq_refl _ _).
    + repeat constructor. do 2 eexists. split; reflexivity.
    + right. eexists. split; reflexivity.
Defined.

Lemma active_plan_below_2p53_witness :
  step start = 0 /\
  Z.of_nat 500 < T * 2 ^ 53 /\
  iterate 501 handles start = Ok (after_passes 501) /\
  seq !! Z.to_nat ((Z.of_nat 500 / T) mod 4)
  = Some (gripper_z_is_low (after_passes 501), gripper_is_closed (after_passes 501)).
Proof.
  assert (H : iterate 501 handles start = Ok (after_passes 501))
    by (vm_compute; reflexivity).
  split; [reflexivity|]. split; [reflexivity|]. split; [exact H|].
  apply (active_plan_below_2p53 (engine := bench) handles start 500 (after_passes 501));
    [reflexivity | reflexivity | exact H].
Defined.

Lemma plan_index_in_bounds_witness :
  plan_index 1500 = Ok 3 /\
  0 <= 3 < 4 /\ exists plan, getitem seq 3 = Ok plan.
Proof.
  split; [vm_compute; reflexivity|].
  apply (plan_index_in_bounds 1500 3). vm_compute. reflexivity.
Defined.

End DemoFacts.

(** ** More facts about the script *)
Module DemoMore.
Import Py Demo PyFacts DemoFacts Observe.

Section More.
Context {engine : Mujoco}.
Implicit Types (st : State) (h : Handles).

Lemma lines_of_quiet (c : Contact) (n1 n2 : option string) :
  engine_calls (lines_of c n1 n2) = [] /\ step_lines (lines_of c n1 n2) = [] /\
  plan_lines (lines_of c n1 n2) = [].
Proof. unfold lines_of. destruct (_ && _); repeat split; reflexivity. Qed.

Lemma contact_lines_quiet (cs : list Contact) (ls : list event) :
  contact_lines cs = Ok ls ->
  engine_calls ls = [] /\ step_lines ls = [] /\ plan_lines ls = [].
Proof.
  revert ls. induction cs as [|c cs IH]; intros ls; simpl.
  - intros [= <-]. repeat split; reflexivity.
  - intros H. inv_bind H as n1. inv_bind Hb as n2. inv_bind Hbb as rest.
    injection Hbbb as <-. destruct (IH rest Hbba) as (E1 & E2 & E3).
    destruct (lines_of_quiet c n1 n2) as (L1 & L2 & L3).
    unfold engine_calls, step_lines, plan_lines in *.
    rewrite List.filter_app, !flat_map_app, E1, E2, E3, L1, L2, L3. repeat split; reflexivity.
Qed.

(** The output of one pass, in full. *)
Lemma pass_output h st st' :
  loop_body h st = Ok st' ->
  exists dl pl v fs vals,
    out st' = out st ++ dl ++ pl ++
      [SetCtrl (gripper_z_id h) v; SetCtrlAt (gripper_jaw_ids h) fs;
       SimStep; SetForceAt (_ref_joint_vel_indexes h) vals; Render] /\
    (step st mod 100 <> 0 -> dl = []) /\
    (step st mod 100 = 0 ->
       exists ls, contact_lines (slice (contact (sim st)) 0 (ncon (sim st))) = Ok ls /\
                  dl = PrintStep (step st) :: ls) /\
    (step st mod T <> 0 -> pl = []) /\
    (step st mod T = 0 -> pl = [PrintPlan (gripper_z_is_low st') (gripper_is_closed st')]).
Proof.
  intros H.
  apply loop_body_inv in H as (st1 & st2 & st3 & d & vals & q & Hd & Hp & Hw & Hs & _ & _ & ->).
  rewrite write_controls_command in Hw.
  apply command_frame in Hw as (_ & Hl & Hc & _ & _ & _ & _ & _ & Ho).
  assert (D : exists dl, st1 = emit st dl /\
            (step st mod 100 <> 0 -> dl = []) /\
            (step st mod 100 = 0 ->
               exists ls, contact_lines (slice (contact (sim st)) 0 (ncon (sim st))) = Ok ls /\
                          dl = PrintStep (step st) :: ls)).
  { destruct (Z.eq_dec (step st mod 100) 0) as [E|E].
    - rewrite diagnostics_on in Hd by exact E. unfold lift in Hd. inv_bind Hd as ls.
      injection Hdb as <-. eexists. split; [reflexivity|]. split; [tauto|]. eauto.
    - rewrite diagnostics_off in Hd by exact E. injection Hd as <-.
      exists []. rewrite emit_nil. split; [reflexivity|]. split; [reflexivity|]. tauto. }
  destruct D as (dl & -> & D1 & D2).
  assert (P : exists pl, out st2 = out (emit st dl) ++ pl /\
            gripper_z_is_low st2 = gripper_z_is_low st2 /\
            (step st mod T <> 0 -> pl = []) /\
            (step st mod T = 0 ->
               pl = [PrintPlan (gripper_z_is_low st2) (gripper_is_closed st2)])).
  { destruct (Z.eq_dec (step st mod T) 0) as [E|E].
    - rewrite select_plan_on in Hp by exact E. inv_bind Hp as i. inv_bind Hpb as plan.
      injection Hpbb as <-. eexists. split; [reflexivity|]. split; [reflexivity|].
      split; [tauto|]. reflexivity.
    - rewrite select_plan_off in Hp by exact E. injection Hp as <-.
      exists []. rewrite app_nil_r. repeat split; tauto. }
  destruct P as (pl & Hpl & _ & P1 & P2).
  exists dl, pl. do 3 eexists. split.
  - simpl. rewrite Ho, Hpl. simpl. rewrite <- !app_assoc. reflexivity.
  - simpl. rewrite Hl, Hc. tauto.
Qed.

Lemma pass_lines h st st' :
  loop_body h st = Ok st' ->
  engine_calls (out st') = engine_calls (out st) ++ [SimStep; Render] /\
  step_lines (out st')
  = step_lines (out st) ++ (if step st mod 100 =? 0 then [step st] else []) /\
  plan_lines (out st')
  = plan_lines (out st) ++
    (if step st mod T =? 0 then [(gripper_z_is_low st', gripper_is_closed st')] else []).
Proof.
  intros H. apply pass_output in H as (dl & pl & v & fs & vals & -> & D1 & D2 & P1 & P2).
  assert (D : engine_calls dl = [] /\ plan_lines dl = [] /\
              step_lines dl = if step st mod 100 =? 0 then [step st] else []).
  { destruct (Z.eqb_spec (step st mod 100) 0) as [E|E].
    - destruct (D2 E) as (ls & Hls & ->).
      destruct (contact_lines_quiet _ _ Hls) as (E1 & E2 & E3).
      unfold engine_calls, step_lines, plan_lines in *. simpl. now rewrite E1, E2, E3.
    - rewrite (D1 E). repeat split; reflexivity. }
  assert (P : engine_calls pl = [] /\ step_lines pl = [] /\
              plan_lines pl = if step st mod T =? 0
                              then [(gripper_z_is_low st', gripper_is_closed st')] else []).
  { destruct (Z.eqb_spec (step st mod T) 0) as [E|E].
    - rewrite (P2 E). repeat split; reflexivity.
    - rewrite (P1 E). repeat split; reflexivity. }
  destruct D as (D3 & D4 & D5), P as (P3 & P4 & P5).
  unfold engine_calls, step_lines, plan_lines in *.
  rewrite !List.filter_app, !flat_map_app, D3, D4, D5, P3, P4, P5. simpl.
  rewrite !app_nil_r. repeat split; reflexivity.
Qed.

(** X3: in a run that completes [n] passes, the engine is stepped once and
    the viewer asked to render once in each pass, the step before the
    render: the calls made are [n] times a step followed by a render. *)
Theorem engine_calls_of_run (n : nat) h st st' :
  iterate n h st = Ok st' ->
  engine_calls (out st')
  = engine_calls (out st) ++ concat (replicate n [SimStep; Render]).
Proof.
  revert st. induction n as [|n IH]; intros st; simpl.
  - intros [= <-]. now rewrite app_nil_r.
  - intros H. inv_bind H as st1. apply pass_lines in Ha as (E & _).
    rewrite (IH _ Hb), E, <- app_assoc. reflexivity.
Qed.

(** X4: in a run that completes [n] passes from the step [s], the step
    numbers printed are the multiples of 100 among [s], ..., [s + n - 1],
    each once and in increasing order. *)
Theorem step_lines_of_run (n : nat) h st st' :
  iterate n h st = Ok st' ->
  step_lines (out st')
  = step_lines (out st) ++
    List.filter (fun s => s mod 100 =? 0) (seqZ (step st) (Z.of_nat n)).
Proof.
  revert st. induction n as [|n IH]; intros st.
  - simpl. intros [= <-]. now rewrite app_nil_r.
  - simpl iterate. intros H. inv_bind H as st1.
    pose proof (loop_body_step _ _ _ Ha) as Hs.
    apply pass_lines in Ha as (_ & E & _).
    rewrite (IH _ Hb), E, Hs, <- app_assoc. f_equal.
    rewrite (seqZ_cons (step st)) by lia. simpl List.filter.
    replace (Z.pred (Z.of_nat (S n))) with (Z.of_nat n) by lia.
    replace (Z.succ (step st)) with (step st + 1) by lia.
    now destruct (step st mod 100 =? 0).
Qed.

(** The entry of [seq] a pass at a multiple of [T] leaves in the flags. *)
Lemma pass_plan_at_change h st st' :
  loop_body h st = Ok st' ->
  step st mod T = 0 -> 0 <= step st < T * 2 ^ 53 ->
  seq !! Z.to_nat ((step st / T) mod 4)
  = Some (gripper_z_is_low st', gripper_is_closed st').
Proof.
  intros H E Hb.
  apply loop_body_flags in H as (st1 & st2 & Hd & Hp & Hs & _ & _ & -> & ->).
  assert (Hk : step st1 = T * (step st / T))
    by (rewrite Hs; apply Z.div_exact in E; unfold T in *; lia).
  destruct (select_plan_exact st1 (step st / T)) as (plan & Hl & Hp'); [|exact Hk|].
  { unfold T in *. Z.div_mod_to_equations. lia. }
  rewrite Hp' in Hp. injection Hp as <-. simpl. rewrite Hl. now destruct plan.
Qed.

(** X5: in a run that completes [n] passes from the step [s], all below
    [500 * 2^53], the plans printed are, for the multiples of 500 among
    [s], ..., [s + n - 1] in increasing order, the entries
    [(step div 500) mod 4] of [seq]. *)
Theorem plan_lines_of_run (n : nat) h st st' :
  0 <= step st -> step st + Z.of_nat n <= T * 2 ^ 53 ->
  iterate n h st = Ok st' ->
  plan_lines (out st')
  = plan_lines (out st) ++
    List.map (fun s => nth (Z.to_nat ((s / T) mod 4)) seq (false, false))
             (List.filter (fun s => s mod T =? 0) (seqZ (step st) (Z.of_nat n))).
Proof.
  revert st. induction n as [|n IH]; intros st H0 Hb.
  - simpl. intros [= <-]. now rewrite app_nil_r.
  - simpl iterate. intros H. inv_bind H as st1.
    pose proof (loop_body_step _ _ _ Ha) as Hs.
    pose proof (pass_plan_at_change _ _ _ Ha) as Hplan.
    apply pass_lines in Ha as (_ & _ & E).
    rewrite (IH st1) by (assumption || lia). rewrite E, Hs, <- app_assoc. f_equal.
    rewrite (seqZ_cons (step st)) by lia. simpl List.filter.
    replace (Z.pred (Z.of_nat (S n))) with (Z.of_nat n) by lia.
    replace (Z.succ (step st)) with (step st + 1) by lia.
    destruct (Z.eqb_spec (step st mod T) 0) as [Em|Em]; [|reflexivity].
    cbn [List.map app]. rewrite nth_lookup, Hplan by (assumption || lia). reflexivity.
Qed.

(** The entry of [seq] in force in the pass at the step [n] of a run that
    starts at a multiple of [T]. *)
Lemma plan_in_force h st0 (n : nat) st_n st1 st2 :
  step st0 mod T = 0 -> 0 <= step st0 ->
  step st0 + Z.of_nat n < T * 2 ^ 53 ->
  iterate n h st0 = Ok st_n ->
  diagnostics st_n = Ok st1 -> select_plan st1 = Ok st2 ->
  seq !! Z.to_nat (((step st0 + Z.of_nat n) / T) mod 4)
  = Some (gripper_z_is_low st2, gripper_is_closed st2).
Proof.
  intros Hm H0. revert st_n st1 st2. induction n as [|n IH]; intros st_n st1 st2 Hb Hi Hd Hp.
  - simpl in Hi. injection Hi as <-. rewrite Z.add_0_r.
    apply diagnostics_frame in Hd as (ls & ->).
    assert (Hk : step (emit st0 ls) = T * (step st0 / T))
      by (simpl; apply Z.div_exact in Hm; unfold T in *; lia).
    destruct (select_plan_exact (emit st0 ls) (step st0 / T)) as (plan & Hl & Hp'); [|exact Hk|].
    { unfold T in *. Z.div_mod_to_equations. lia. }
    rewrite Hp' in Hp. injection Hp as <-. simpl. rewrite Hl. now destruct plan.
  - rewrite iterate_snoc in Hi. inv_bind Hi as s.
    pose proof (iterate_step _ _ _ _ Hia) as Hstep.
    pose proof (loop_body_step _ _ _ Hib) as Hone.
    apply loop_body_flags in Hib as (s1 & s2 & Hd' & Hp' & _ & _ & _ & Hl' & Hc').
    specialize (IH s s1 s2 ltac:(lia) Hia Hd' Hp').
    apply diagnostics_frame in Hd as (ls & ->).
    destruct (Z.eq_dec (step (emit st_n ls) mod T) 0) as [E|E].
    + assert (Hk : step (emit st_n ls) = T * (step st_n / T))
        by (simpl in *; apply Z.div_exact in E; unfold T in *; lia).
      destruct (select_plan_exact (emit st_n ls) (step st_n / T)) as (plan & Hl & Hq);
        [|exact Hk|].
      { unfold T in *. Z.div_mod_to_equations. lia. }
      rewrite Hq in Hp. injection Hp as <-. simpl.
      replace (step st0 + Z.of_nat (S n)) with (step st_n) by lia.
      rewrite Hl. now destruct plan.
    + rewrite select_plan_off in Hp by exact E. injection Hp as <-. simpl in *.
      rewrite Hl', Hc', <- IH.
      replace ((step st0 + Z.of_nat (S n)) / T) with ((step st0 + Z.of_nat n) / T);
        [reflexivity|].
      unfold T in *. Z.div_mod_to_equations. lia.
Qed.

Lemma phase_order_seq (i : nat) (low closed : bool) :
  seq !! i = Some (low, closed) ->
  phase_order !! i
  = Some ((low, closed),
          (if low then gripper_z_low else gripper_z_high,
           if closed then gripper_closed else gripper_open)).
Proof.
  do 4 (destruct i as [|i]; [simpl; intros [= <- <-]; reflexivity|]).
  discriminate.
Qed.

(** X6: in a run that starts at a multiple of 500, the pass at the step
    [s] (below [500 * 2^53]) writes the targets of the entry
    [(s div 500) mod 4] of the plan table, then steps the engine, copies
    the force and renders: these five events end the output of the pass. *)
Theorem pass_commands_scheduled_phase h st0 (n : nat) st_n st :
  step st0 mod T = 0 -> 0 <= step st0 ->
  step st0 + Z.of_nat n < T * 2 ^ 53 ->
  iterate n h st0 = Ok st_n ->
  loop_body h st_n = Ok st ->
  exists low closed height fingers pre vals,
    phase_order !! Z.to_nat ((step st_n / T) mod 4)
    = Some ((low, closed), (height, fingers)) /\
    out st = pre ++
      [SetCtrl (gripper_z_id h) height; SetCtrlAt (gripper_jaw_ids h) fingers;
       SimStep; SetForceAt (_ref_joint_vel_indexes h) vals; Render].
Proof.
  intros Hm H0 Hb Hi H.
  apply loop_body_inv in H as (st1 & st2 & st3 & d & vals & q & Hd & Hp & Hw & _ & _ & _ & ->).
  pose proof (plan_in_force h st0 n st_n st1 st2 Hm H0 Hb Hi Hd Hp) as Hplan.
  rewrite <- (iterate_step _ _ _ _ Hi) in Hplan. apply phase_order_seq in Hplan.
  rewrite write_controls_command in Hw.
  apply command_frame in Hw as (_ & _ & _ & _ & _ & _ & _ & _ & Ho).
  do 4 eexists. exists (out st2), vals. split; [exact Hplan|].
  simpl. rewrite Ho, <- app_assoc. reflexivity.
Qed.

Lemma plan_entry_period (x : Z) : ((x + 2000) / T) mod 4 = (x / T) mod 4.
Proof.
  unfold T. replace (x + 2000) with (x + 4 * 500) by lia.
  rewrite Z.div_add by lia. replace (x / 500 + 4) with (x / 500 + 1 * 4) by lia.
  now rewrite Z.mod_add by lia.
Qed.

(** X7: the plan repeats every 2000 steps: of two runs that start at
    multiples of 500, the second 2000 steps after the first, the flags
    after the passes [n] steps later are the same (below [500 * 2^53]). *)
Theorem plan_repeats_every_2000 h st_a st_b (n : nat) st_a' st_b' :
  step st_a mod T = 0 -> 0 <= step st_a ->
  step st_b = step st_a + 2000 ->
  step st_b + Z.of_nat n < T * 2 ^ 53 ->
  iterate (S n) h st_a = Ok st_a' ->
  iterate (S n) h st_b = Ok st_b' ->
  (gripper_z_is_low st_b', gripper_is_closed st_b')
  = (gripper_z_is_low st_a', gripper_is_closed st_a').
Proof.
  intros Hm H0 Hs Hb Ha Hb'.
  rewrite iterate_snoc in Ha, Hb'. inv_bind Ha as sa. inv_bind Hb' as sb.
  apply loop_body_flags in Hab as (a1 & a2 & Hd & Hp & _ & _ & _ & -> & ->).
  apply loop_body_flags in Hb'b as (b1 & b2 & Hd' & Hp' & _ & _ & _ & -> & ->).
  assert (Hm' : step st_b mod T = 0).
  { rewrite Hs. unfold T in *. replace (step st_a + 2000) with (step st_a + 4 * 500) by lia.
    now rewrite Z.mod_add by lia. }
  pose proof (plan_in_force h st_a n sa a1 a2 Hm H0 ltac:(lia) Haa Hd Hp) as Pa.
  pose proof (plan_in_force h st_b n sb b1 b2 Hm' ltac:(lia) Hb Hb'a Hd' Hp') as Pb.
  replace (step st_b + Z.of_nat n) with (step st_a + Z.of_nat n + 2000) in Pb by lia.
  rewrite plan_entry_period in Pb. congruence.
Qed.

(** X8: the data the engine is stepped on is the data the pass started
    with, changed by the script in [ctrl] only. *)
Theorem engine_input_differs_in_ctrl_only h st st' :
  loop_body h st = Ok st' ->
  exists st3 d,
    (let* s := diagnostics st in
     let* s := select_plan s in
     write_controls h s) = Ok st3 /\
    sim_step (sim st3) = Ok d /\
    sim st3 = with_ctrl (sim st) (ctrl (sim st3)).
Proof.
  intros H.
  apply loop_body_inv in H as (st1 & st2 & st3 & d & vals & q & Hd & Hp & Hw & Hs & _).
  exists st3, d. rewrite Hd. simpl. rewrite Hp. simpl.
  repeat split; try assumption.
  destruct (before_controls _ _ _ Hd Hp) as (Hsim & _).
  rewrite write_controls_command in Hw.
  apply command_frame in Hw as (_ & _ & _ & Ha & Hb & Hc & Hn & Hh & _).
  rewrite Hsim in *. unfold with_ctrl. rewrite <- Ha, <- Hb, <- Hc, <- Hn, <- Hh.
  now destruct (sim st3).
Qed.

(** *** Indices out of range and values of the wrong shape *)

Lemma classic_in_range (len : nat) (i : Z) : in_range len i \/ ~ in_range len i.
Proof. unfold in_range. lia. Qed.

Lemma norm_index_out (len : nat) (i : Z) :
  ~ in_range len i -> norm_index len i = Raise IndexError.
Proof.
  unfold in_range, norm_index. intros H.
  destruct (Z.leb_spec 0 i), (Z.ltb_spec i (Z.of_nat len)),
    (Z.leb_spec (- Z.of_nat len) i), (Z.ltb_spec i 0); simpl; try reflexivity; lia.
Qed.

Lemma norm_index_in (len : nat) (i : Z) :
  in_range len i -> exists n : nat, norm_index len i = Ok n /\ (n < len)%nat.
Proof.
  unfold in_range. intros H.
  destruct (norm_index len i) as [n|e] eqn:E.
  - exists n. split; [reflexivity|]. now apply norm_index_lt in E.
  - unfold norm_index in E.
    destruct (Z.leb_spec 0 i), (Z.ltb_spec i (Z.of_nat len)),
      (Z.leb_spec (- Z.of_nat len) i), (Z.ltb_spec i 0); simpl in E; try discriminate; lia.
Qed.

Lemma mapM_norm_index (len : nat) (ids : list Z) :
  Forall (in_range len) ids -> exists ns, mapM (norm_index len) ids = Ok ns.
Proof.
  induction 1 as [|i ids Hi _ (ns & IH)]; simpl; [eauto|].
  destruct (norm_index_in _ _ Hi) as (n & -> & _). simpl. rewrite IH. simpl. eauto.
Qed.

(** X9: a pass that reaches the control writes with the id of the slider's
    actuator, or one of the two finger ids, outside the control array ends
    with [IndexError]; the three ids are integers of NumPy's index type, as
    the ids the engine returns are. *)
Theorem bad_actuator_id_raises h st st2 (j0 j1 : Z) :
  (let* s := diagnostics st in select_plan s) = Ok st2 ->
  gripper_jaw_ids h = [j0; j1] ->
  fits_intp (gripper_z_id h) -> fits_intp j0 -> fits_intp j1 ->
  ~ in_range (length (ctrl (sim st))) (gripper_z_id h) \/
  ~ in_range (length (ctrl (sim st))) j0 \/
  ~ in_range (length (ctrl (sim st))) j1 ->
  loop_body h st = Raise IndexError.
Proof.
  intros H Hj _ _ _ Hbad. unfold loop_body.
  inv_bind H as st1. rewrite Ha. simpl. rewrite Hb. simpl.
  destruct (before_controls _ _ _ Ha Hb) as (Hsim & _).
  rewrite write_controls_command.
  destruct (gripper_tables_two (gripper_is_closed st2)) as (f0 & f1 & ->).
  unfold command, set_ctrl, set_ctrl_at, setitem. rewrite Hsim, Hj.
  destruct (norm_index (length (ctrl (sim st))) (gripper_z_id h)) as [nz|e] eqn:Ez.
  - simpl. rewrite put_at_two, length_insert.
    destruct (norm_index (length (ctrl (sim st))) j0) as [n0|e0] eqn:E0.
    + simpl. destruct (norm_index (length (ctrl (sim st))) j1) as [n1|e1] eqn:E1.
      * exfalso. destruct Hbad as [B|[B|B]]; apply norm_index_out in B; congruence.
      * simpl. destruct (classic_in_range (length (ctrl (sim st))) j1) as [I|O].
        -- apply norm_index_in in I as (n & I & _). congruence.
        -- apply norm_index_out in O. congruence.
    + simpl. destruct (classic_in_range (length (ctrl (sim st))) j0) as [I|O].
      * apply norm_index_in in I as (n & I & _). congruence.
      * apply norm_index_out in O. congruence.
  - simpl. destruct (classic_in_range (length (ctrl (sim st))) (gripper_z_id h)) as [I|O].
    + apply norm_index_in in I as (n & I & _). congruence.
    + apply norm_index_out in O. congruence.
Qed.

(** X10: the finger tables hold two values: with a gripper whose number of
    actuators is not two (all ids inside the control array), a pass that
    reaches the control writes ends with [ValueError]. *)
Theorem gripper_needs_two_actuators h st st2 :
  (let* s := diagnostics st in select_plan s) = Ok st2 ->
  in_range (length (ctrl (sim st))) (gripper_z_id h) ->
  Forall (in_range (length (ctrl (sim st)))) (gripper_jaw_ids h) ->
  length (gripper_jaw_ids h) <> 2%nat ->
  loop_body h st = Raise ValueError.
Proof.
  intros H Hz Hj Hlen. unfold loop_body.
  inv_bind H as st1. rewrite Ha. simpl. rewrite Hb. simpl.
  destruct (before_controls _ _ _ Ha Hb) as (Hsim & _).
  rewrite write_controls_command.
  destruct (gripper_tables_two (gripper_is_closed st2)) as (f0 & f1 & ->).
  unfold command, set_ctrl, set_ctrl_at, setitem. rewrite Hsim.
  destruct (norm_index_in _ _ Hz) as (nz & -> & _). simpl.
  unfold put_at. rewrite length_insert.
  destruct (mapM_norm_index _ _ Hj) as (ns & ->). simpl.
  unfold broadcast. simpl length.
  destruct (Nat.eqb_spec 2 (length (gripper_jaw_ids h))) as [E|E]; [congruence|].
  reflexivity.
Qed.

(** *** The contact buffer *)


(** X12: the diagnostics read the first [ncon] entries of the contact
    buffer only: with another buffer that has the same first [ncon]
    entries they print the same lines or end with the same exception. *)
Theorem stale_contacts_ignored st (cs : list Contact) :
  0 <= ncon (sim st) ->
  take (Z.to_nat (ncon (sim st))) cs
  = take (Z.to_nat (ncon (sim st))) (contact (sim st)) ->
  lift out (diagnostics (with_sim st (with_contact (sim st) cs)))
  = lift out (diagnostics st).
Proof.
  intros Hn Ht. unfold diagnostics. simpl.
  destruct (mod_ (step st) 100 =? 0); [|reflexivity].
  rewrite !report_contacts_lines, !lift_lift, !slice_prefix by exact Hn.
  rewrite Ht. reflexivity.
Qed.

(** *** Runs that complete *)

Lemma contact_lines_total (cs : list Contact) :
  (forall c, In c cs ->
     exists n1 n2, geom_id2name (geom1 c) = Ok n1 /\ geom_id2name (geom2 c) = Ok n2) ->
  exists ls, contact_lines cs = Ok ls.
Proof.
  induction cs as [|c cs IH]; intros H; simpl; [eauto|].
  destruct (H c (or_introl eq_refl)) as (n1 & n2 & -> & ->). simpl.
  destruct IH as (ls & ->); [intros c' Hc'; apply H; now right|]. simpl. eauto.
Qed.

Lemma select_plan_total st :
  0 <= step st < T * 2 ^ 53 ->
  exists st', select_plan st = Ok st' /\ sim st' = sim st /\ step st' = step st.
Proof.
  intros Hb. destruct (Z.eq_dec (step st mod T) 0) as [E|E].
  - assert (Hk : step st = T * (step st / T))
      by (apply Z.div_exact in E; unfold T in *; lia).
    destruct (select_plan_exact st (step st / T)) as (plan & _ & ->); [|exact Hk|].
    { unfold T in *. Z.div_mod_to_equations. lia. }
    eexists. repeat split.
  - rewrite select_plan_off by exact E. eauto.
Qed.

Lemma select_plan_before_overflow st :
  0 <= step st < first_overflow ->
  exists st', select_plan st = Ok st' /\ sim st' = sim st /\ step st' = step st.
Proof.
  intros Hb. destruct (Z.eq_dec (step st mod T) 0) as [E|E].
  - assert (Hk : step st = T * (step st / T))
      by (apply Z.div_exact in E; unfold T in *; lia).
    rewrite select_plan_on by exact E.
    destruct (plan_index_defined (step st / T)) as (i & Hi).
    { unfold first_overflow, T in *. lia. }
    rewrite <- Hk in Hi. rewrite Hi. cbn [bind].
    destruct (plan_index_in_bounds _ _ Hi) as (_ & plan & ->). simpl.
    eexists. repeat split.
  - rewrite select_plan_off by exact E. eauto.
Qed.

Section Invariant.
Variable good : MjData hidden_state -> Prop.
Variables (h : Handles) (j0 j1 a : Z).
Hypothesis jaws_two : gripper_jaw_ids h = [j0; j1].
Hypothesis one_joint : _ref_joint_vel_indexes h = [a].
Hypothesis good_ids : forall d, good d ->
  in_range (length (ctrl d)) (gripper_z_id h) /\
  in_range (length (ctrl d)) j0 /\ in_range (length (ctrl d)) j1 /\
  in_range (length (qfrc_bias d)) a /\ in_range (length (qfrc_applied d)) a.
Hypothesis good_geoms : forall d c, good d ->
  In c (slice (contact d) 0 (ncon d)) ->
  exists n1 n2, geom_id2name (geom1 c) = Ok n1 /\ geom_id2name (geom2 c) = Ok n2.
Hypothesis good_ctrl : forall d c,
  good d -> length c = length (ctrl d) -> good (with_ctrl d c).
Hypothesis good_force : forall d q,
  good d -> length q = length (qfrc_applied d) -> good (with_qfrc_applied d q).
Hypothesis good_step : forall d, good d -> exists d', sim_step d = Ok d' /\ good d'.

Lemma pass_completes_when st :
  good (sim st) ->
  (forall ls, exists st2, select_plan (emit st ls) = Ok st2 /\ sim st2 = sim st) ->
  exists st', loop_body h st = Ok st' /\ good (sim st').
Proof.
  intros Hg Hplan. unfold loop_body.
  assert (D : exists ls, diagnostics st = Ok (emit st ls)).
  { destruct (Z.eq_dec (step st mod 100) 0) as [E|E].
    - rewrite diagnostics_on by exact E.
      destruct (contact_lines_total _ (fun c => good_geoms _ c Hg)) as (ls & ->).
      simpl. eauto.
    - rewrite diagnostics_off by exact E. exists []. now rewrite emit_nil. }
  destruct D as (ls & ->). simpl.
  destruct (Hplan ls) as (st2 & -> & Hsim). simpl.
  rewrite write_controls_command.
  destruct (gripper_tables_two (gripper_is_closed st2)) as (f0 & f1 & ->).
  destruct (good_ids _ Hg) as (Iz & I0 & I1 & Ib & Ia).
  unfold command, set_ctrl, set_ctrl_at, setitem. rewrite Hsim, jaws_two.
  destruct (norm_index_in _ _ Iz) as (nz & -> & _). simpl.
  rewrite put_at_two, length_insert.
  destruct (norm_index_in _ _ I0) as (n0 & -> & _).
  destruct (norm_index_in _ _ I1) as (n1 & -> & _). simpl.
  unfold step_engine. simpl.
  set (c2 := <[n1:=f1]> (<[n0:=f0]> (<[nz:=_]> (ctrl (sim st))))).
  assert (G2 : good (with_ctrl (sim st) c2))
    by (apply good_ctrl; [exact Hg | unfold c2; now rewrite !length_insert]).
  destruct (good_step _ G2) as (d' & Hstep & G3).
  replace (with_ctrl (with_ctrl (sim st) _) c2) with (with_ctrl (sim st) c2) by reflexivity.
  rewrite Hstep. simpl.
  unfold compensate_gravity. simpl. rewrite one_joint.
  destruct (good_ids _ G3) as (_ & _ & _ & Ib' & Ia').
  unfold take_at, getitem. simpl.
  destruct (norm_index_in _ _ Ib') as (nb & -> & Lb). simpl.
  destruct (lookup_lt_is_Some_2 (qfrc_bias d') nb Lb) as (v & ->). simpl.
  unfold put_at. simpl.
  destruct (norm_index_in _ _ Ia') as (na & -> & La). simpl.
  eexists. split; [reflexivity|]. simpl.
  apply good_force; [exact G3 | now rewrite length_insert].
Qed.

Lemma pass_completes st :
  good (sim st) -> 0 <= step st < T * 2 ^ 53 ->
  exists st', loop_body h st = Ok st' /\ good (sim st').
Proof.
  intros Hg Hb. apply pass_completes_when; [exact Hg|]. intros ls.
  destruct (select_plan_total (emit st ls) Hb) as (st2 & H & Hsim & _). eauto.
Qed.

Lemma pass_completes_before_overflow st :
  good (sim st) -> 0 <= step st < first_overflow ->
  exists st', loop_body h st = Ok st' /\ good (sim st').
Proof.
  intros Hg Hb. apply pass_completes_when; [exact Hg|]. intros ls.
  destruct (select_plan_before_overflow (emit st ls) Hb) as (st2 & H & Hsim & _). eauto.
Qed.



End Invariant.

(** X16: no run gets past the step [500 * (2^1024 - 2^970)]: whatever the
    engine, a run that starts at or below it and completes ends at or below
    it, for the pass at that step cannot complete. *)
Theorem counter_stops_at_overflow h (n : nat) st0 st :
  step st0 <= first_overflow ->
  iterate n h st0 = Ok st ->
  step st <= first_overflow.
Proof.
  intros H0. revert st. induction n as [|n IH]; intros st.
  - simpl. now intros [= <-].
  - rewrite iterate_snoc. intros H. inv_bind H as s.
    specialize (IH s Ha). pose proof (loop_body_step _ _ _ Hb) as Hs.
    destruct (Z.eq_dec (step s) first_overflow) as [E|E]; [|lia].
    destruct (pass_overflows h s E) as [_ N]. now destruct (N st).
Qed.

(** *** The look-ups before the loop *)

Lemma mapM_Forall2 {A B} (f : A -> result B) (l : list A) (r : list B) :
  mapM f l = Ok r <-> Forall2 (fun x y => f x = Ok y) l r.
Proof.
  revert r. induction l as [|x l IH]; intros r; simpl.
  - split; [intros [= <-]; constructor | intros H; now inversion H].
  - split.
    + intros H. inv_bind H as y. inv_bind Hb as ys. injection Hbb as <-.
      constructor; [exact Ha | now apply IH].
    + intros H. inversion H as [|? y ? ys Hx Hl]; subst.
      rewrite Hx. simpl. apply IH in Hl. rewrite Hl. reflexivity.
Qed.

(** X14: the loop is reached exactly when the model knows the joint, the
    slider's actuator and every actuator of the gripper; the handles are
    then the address and the ids returned, the finger ids in the order of
    the gripper's actuator names, and the loop is entered at the step 0
    with no output, on the restored state. *)
Theorem setup_succeeds_iff (d : MjData hidden_state) hs :
  setup d = Ok hs <->
  exists a z jaws,
    get_joint_qvel_addr "gripper_z_joint" = Ok a /\
    actuator_name2id "gripper_z" = Ok z /\
    Forall2 (fun name i => actuator_name2id name = Ok i) gripper_actuators jaws /\
    hs = ({| _ref_joint_vel_indexes := [a]; gripper_z_id := z; gripper_jaw_ids := jaws |},
          loop_entry (set_state d (get_state d)) false true).
Proof.
  unfold setup. simpl. split.
  - intros H. inv_bind H as idx. inv_bind Ha as a. injection Hab as <-.
    inv_bind Hb as z. inv_bind Hbb as jaws. injection Hbbb as <-.
    exists a, z, jaws. repeat split; try assumption. now apply mapM_Forall2.
  - intros (a & z & jaws & -> & -> & Hj & ->). simpl.
    apply mapM_Forall2 in Hj. rewrite Hj. reflexivity.
Qed.

End More.

(** *** The statements above on the bench *)

Import Bench.

Lemma engine_calls_of_run_witness :
  iterate 3 handles start = Ok (after_passes 3) /\
  engine_calls (out (after_passes 3))
  = engine_calls (out start) ++ concat (replicate 3 [SimStep; Render]).
Proof.
  assert (H : iterate 3 handles start = Ok (after_passes 3)) by (vm_compute; reflexivity).
  split; [exact H|].
  apply (engine_calls_of_run (engine := bench) 3 handles start (after_passes 3) H).
Defined.

Lemma step_lines_of_run_witness :
  iterate 5 handles (at_step 98) = Ok (after_passes_from 98 5) /\
  step_lines (out (after_passes_from 98 5))
  = step_lines (out (at_step 98)) ++
    List.filter (fun s => s mod 100 =? 0) (seqZ (step (at_step 98)) (Z.of_nat 5)).
Proof.
  assert (H : iterate 5 handles (at_step 98) = Ok (after_passes_from 98 5))
    by (vm_compute; reflexivity).
  split; [exact H|].
  apply (step_lines_of_run (engine := bench) 5 handles (at_step 98) (after_passes_from 98 5) H).
Defined.

Lemma plan_lines_of_run_witness :
  0 <= step (at_step 1498) /\ step (at_step 1498) + Z.of_nat 5 <= T * 2 ^ 53 /\
  iterate 5 handles (at_step 1498) = Ok (after_passes_from 1498 5) /\
  plan_lines (out (after_passes_from 1498 5))
  = plan_lines (out (at_step 1498)) ++
    List.map (fun s => nth (Z.to_nat ((s / T) mod 4)) seq (false, false))
             (List.filter (fun s => s mod T =? 0)
                          (seqZ (step (at_step 1498)) (Z.of_nat 5))).
Proof.
  assert (H : iterate 5 handles (at_step 1498) = Ok (after_passes_from 1498 5))
    by (vm_compute; reflexivity).
  assert (B : step (at_step 1498) + Z.of_nat 5 <= T * 2 ^ 53) by (vm_compute; discriminate).
  split; [simpl; lia|]. split; [exact B|]. split; [exact H|].
  apply (plan_lines_of_run (engine := bench) 5 handles (at_step 1498)
           (after_passes_from 1498 5));
    [simpl; lia | exact B | exact H].
Defined.

Lemma pass_commands_scheduled_phase_witness :
  step (at_step 1000) mod T = 0 /\ 0 <= step (at_step 1000) /\
  step (at_step 1000) + Z.of_nat 3 < T * 2 ^ 53 /\
  iterate 3 handles (at_step 1000) = Ok (after_passes_from 1000 3) /\
  loop_body handles (after_passes_from 1000 3) = Ok (after_passes_from 1000 4) /\
  exists low closed height fingers pre vals,
    phase_order !! Z.to_nat ((step (after_passes_from 1000 3) / T) mod 4)
    = Some ((low, closed), (height, fingers)) /\
    out (after_passes_from 1000 4) = pre ++
      [SetCtrl (gripper_z_id handles) height; SetCtrlAt (gripper_jaw_ids handles) fingers;
       SimStep; SetForceAt (_ref_joint_vel_indexes handles) vals; Render].
Proof.
  assert (H : iterate 3 handles (at_step 1000) = Ok (after_passes_from 1000 3))
    by (vm_compute; reflexivity).
  assert (H' : loop_body handles (after_passes_from 1000 3) = Ok (after_passes_from 1000 4))
    by (vm_compute; reflexivity).
  assert (B : step (at_step 1000) + Z.of_nat 3 < T * 2 ^ 53) by (vm_compute; reflexivity).
  split; [reflexivity|]. split; [simpl; lia|]. split; [exact B|].
  split; [exact H|]. split; [exact H'|].
  apply (pass_commands_scheduled_phase (engine := bench)
           handles (at_step 1000) 3 (after_passes_from 1000 3) (after_passes_from 1000 4)
           eq_refl ltac:(simpl; lia) B H H').
Defined.

Lemma plan_repeats_every_2000_witness :
  step (at_step 500) mod T = 0 /\ 0 <= step (at_step 500) /\
  step (at_step 2500) = step (at_step 500) + 2000 /\
  step (at_step 2500) + Z.of_nat 2 < T * 2 ^ 53 /\
  iterate 3 handles (at_step 500) = Ok (after_passes_from 500 3) /\
  iterate 3 handles (at_step 2500) = Ok (after_passes_from 2500 3) /\
  (gripper_z_is_low (after_passes_from 2500 3), gripper_is_closed (after_passes_from 2500 3))
  = (gripper_z_is_low (after_passes_from 500 3), gripper_is_closed (after_passes_from 500 3)).
Proof.
  assert (H : iterate 3 handles (at_step 500) = Ok (after_passes_from 500 3))
    by (vm_compute; reflexivity).
  assert (H' : iterate 3 handles (at_step 2500) = Ok (after_passes_from 2500 3))
    by (vm_compute; reflexivity).
  assert (B : step (at_step 2500) + Z.of_nat 2 < T * 2 ^ 53) by (vm_compute; reflexivity).
  split; [reflexivity|]. split; [simpl; lia|]. split; [reflexivity|]. split; [exact B|].
  split; [exact H|]. split; [exact H'|].
  apply (plan_repeats_every_2000 (engine := bench)
           handles (at_step 500) (at_step 2500) 2
           (after_passes_from 500 3) (after_passes_from 2500 3)
           eq_refl ltac:(simpl; lia) eq_refl B H H').
Defined.

Lemma engine_input_differs_in_ctrl_only_witness :
  loop_body handles (at_step 500) = Ok (after_pass 500) /\
  exists st3 d,
    (let* s := diagnostics (at_step 500) in
     let* s := select_plan s in
     write_controls handles s) = Ok st3 /\
    sim_step (sim st3) = Ok d /\
    sim st3 = with_ctrl (sim (at_step 500)) (ctrl (sim st3)).
Proof.
  assert (H : loop_body handles (at_step 500) = Ok (after_pass 500))
    by (vm_compute; reflexivity).
  split; [exact H|].
  apply (engine_input_differs_in_ctrl_only (engine := bench)
           handles (at_step 500) (after_pass 500) H).
Defined.

Lemma bad_actuator_id_raises_witness :
  (let* s := diagnostics (at_step 7) in select_plan s) = Ok (at_step 7) /\
  gripper_jaw_ids handles_bad_z = [0; 1] /\
  fits_intp (gripper_z_id handles_bad_z) /\ fits_intp 0 /\ fits_intp 1 /\
  ~ in_range (length (ctrl (sim (at_step 7)))) (gripper_z_id handles_bad_z) /\
  loop_body handles_bad_z (at_step 7) = Raise IndexError.
Proof.
  assert (B : ~ in_range (length (ctrl (sim (at_step 7)))) (gripper_z_id handles_bad_z))
    by (unfold in_range; simpl; lia).
  assert (Fz : fits_intp (gripper_z_id handles_bad_z)) by (unfold fits_intp; simpl; lia).
  assert (F0 : fits_intp 0) by (unfold fits_intp; lia).
  assert (F1 : fits_intp 1) by (unfold fits_intp; lia).
  split; [reflexivity|]. split; [reflexivity|].
  split; [exact Fz|]. split; [exact F0|]. split; [exact F1|]. split; [exact B|].
  apply (bad_actuator_id_raises (engine := bench) handles_bad_z (at_step 7) (at_step 7) 0 1
           eq_refl eq_refl Fz F0 F1 (or_introl B)).
Defined.

Lemma gripper_needs_two_actuators_witness :
  (let* s := diagnostics (at_step 7) in select_plan s) = Ok (at_step 7) /\
  in_range (length (ctrl (sim (at_step 7)))) (gripper_z_id handles_one_jaw) /\
  Forall (in_range (length (ctrl (sim (at_step 7))))) (gripper_jaw_ids handles_one_jaw) /\
  length (gripper_jaw_ids handles_one_jaw) <> 2%nat /\
  loop_body handles_one_jaw (at_step 7) = Raise ValueError.
Proof.
  assert (Iz : in_range (length (ctrl (sim (at_step 7)))) (gripper_z_id handles_one_jaw))
    by (unfold in_range; simpl; lia).
  assert (Ij : Forall (in_range (length (ctrl (sim (at_step 7)))))
                      (gripper_jaw_ids handles_one_jaw))
    by (repeat constructor; unfold in_range; simpl; lia).
  assert (L : length (gripper_jaw_ids handles_one_jaw) <> 2%nat) by (simpl; lia).
  split; [reflexivity|]. split; [exact Iz|]. split; [exact Ij|]. split; [exact L|].
  apply (gripper_needs_two_actuators (engine := bench) handles_one_jaw (at_step 7) (at_step 7)
           eq_refl Iz Ij L).
Defined.


Lemma stale_contacts_ignored_witness :
  0 <= ncon (sim (at_step 300)) /\
  take (Z.to_nat (ncon (sim (at_step 300)))) other_buffer
  = take (Z.to_nat (ncon (sim (at_step 300)))) (contact (sim (at_step 300))) /\
  lift out (diagnostics (with_sim (at_step 300) (with_contact (sim (at_step 300)) other_buffer)))
  = lift out (diagnostics (at_step 300)).
Proof.
  assert (N : 0 <= ncon (sim (at_step 300))) by (simpl; lia).
  split; [exact N|]. split; [reflexivity|].
  apply (stale_contacts_ignored (engine := bench) (at_step 300) other_buffer N eq_refl).
Defined.

Lemma bench_good_ids (d : MjData Z) :
  bench_good d ->
  in_range (length (ctrl d)) (gripper_z_id handles) /\
  in_range (length (ctrl d)) 0 /\ in_range (length (ctrl d)) 1 /\
  in_range (length (qfrc_bias d)) 0 /\ in_range (length (qfrc_applied d)) 0.
Proof.
  intros ([= -> -> ->] & _). unfold in_range. simpl. lia.
Qed.

Lemma bench_good_geoms (d : MjData Z) (c : Contact) :
  bench_good d -> In c (slice (contact d) 0 (ncon d)) ->
  exists n1 n2, geom_id2name (Mujoco := bench) (geom1 c) = Ok n1 /\
                geom_id2name (Mujoco := bench) (geom2 c) = Ok n2.
Proof.
  intros (_ & -> & ->) H. vm_compute in H.
  destruct H as [<- | [<- | [<- | []]]]; do 2 eexists; split; reflexivity.
Qed.

Lemma bench_good_ctrl (d : MjData Z) (c : list float) :
  bench_good d -> length c = length (ctrl d) -> bench_good (@with_ctrl bench d c).
Proof.
  intros (H & Hc & Hn) L. unfold bench_good, sizes in *. simpl.
  injection H as H1 H2 H3. rewrite L, H1, H2, H3. auto.
Qed.

Lemma bench_good_force (d : MjData Z) (q : list float) :
  bench_good d -> length q = length (qfrc_applied d) ->
  bench_good (@with_qfrc_applied bench d q).
Proof.
  intros (H & Hc & Hn) L. unfold bench_good, sizes in *. simpl.
  injection H as H1 H2 H3. rewrite L, H1, H2, H3. auto.
Qed.

Lemma bench_good_step (d : MjData Z) :
  bench_good d -> exists d', sim_step (Mujoco := bench) d = Ok d' /\ bench_good d'.
Proof.
  intros (H & Hc & Hn). eexists. split; [reflexivity|].
  unfold bench_good, sizes in *. simpl. rewrite length_insert.
  injection H as H1 H2 H3. rewrite H1, H2, H3. auto.
Qed.



Lemma counter_stops_at_overflow_witness :
  step (at_step (first_overflow - 2)) <= first_overflow /\
  iterate 2 handles (at_step (first_overflow - 2)) = Ok (after_passes_from (first_overflow - 2) 2) /\
  step (after_passes_from (first_overflow - 2) 2) <= first_overflow /\
  iterate 3 handles (at_step (first_overflow - 2)) = Raise OverflowError.
Proof.
  assert (B : step (at_step (first_overflow - 2)) <= first_overflow)
    by (vm_compute; discriminate).
  assert (H : iterate 2 handles (at_step (first_overflow - 2))
              = Ok (after_passes_from (first_overflow - 2) 2)) by (vm_compute; reflexivity).
  split; [exact B|]. split; [exact H|]. split.
  - apply (counter_stops_at_overflow (engine := bench) handles 2
             (at_step (first_overflow - 2)) (after_passes_from (first_overflow - 2) 2) B H).
  - vm_compute. reflexivity.
Defined.

End DemoMore.
